(** * S3 downloader: the directory-download orchestration of [s3_downloader.py]

    A shallow embedding of [S3Downloader.list_objects], [download_file],
    [download_directory] and [generate_download_report], with the
    properties of the filter, truncation, path-mapping, batch and report
    stages.

    Conventions.
    - Python [str] values are [string]s of ASCII text: [str.lower]
      changes the letters [A]-[Z] only.
    - Python's [None] is [None]; an [Optional[str]] is an [option string].
    - The storage client (boto3), [pathlib] and the clock are external
      collaborators: their answers are parameters of the model.
    - [logger] calls and the [tqdm] progress bar do not influence any
      returned value and are left out. *)

From Stdlib Require Import List String Ascii Bool Arith ZArith Lia.
From Stdlib Require Import Floats Uint63 DecimalString.
Import ListNotations.

Local Open Scope string_scope.
Local Open Scope list_scope.

(** ** Python string operations used by the source *)

Module PyStr.

(** [c.lower()] on one ASCII character. *)
Definition lower_ascii (c : ascii) : ascii :=
  let n := nat_of_ascii c in
  if (65 <=? n)%nat && (n <=? 90)%nat then ascii_of_nat (n + 32) else c.

(** [s.lower()] *)
Fixpoint lower (s : string) : string :=
  match s with
  | EmptyString => EmptyString
  | String c t => String (lower_ascii c) (lower t)
  end.

(** [s[n:]] for [n >= 0] *)
Fixpoint slice_from (n : nat) (s : string) : string :=
  match n, s with
  | O, _ => s
  | S _, EmptyString => EmptyString
  | S m, String _ t => slice_from m t
  end.

(** [s.endswith(suffix)] *)
Definition endswith (s suffix : string) : bool :=
  if (String.length suffix <=? String.length s)%nat
  then String.eqb (slice_from (String.length s - String.length suffix) s) suffix
  else false.

(** [s.startswith(p)] *)
Fixpoint startswith (s p : string) : bool :=
  match p, s with
  | EmptyString, _ => true
  | String _ _, EmptyString => false
  | String a p', String b s' => Ascii.eqb a b && startswith s' p'
  end.

(** [s.lstrip(c)] for a one-character strip set *)
Fixpoint lstrip (c : ascii) (s : string) : string :=
  match s with
  | EmptyString => EmptyString
  | String a t => if Ascii.eqb a c then lstrip c t else s
  end.

(** Truth value of a string: [bool(s)] *)
Definition truthy (s : string) : bool :=
  match s with EmptyString => false | String _ _ => true end.

End PyStr.

(** The path separator of object keys. *)
Definition sep : ascii := "/"%char.

(** ** Data model *)

(** The dictionary built per object by [list_objects]. *)
Record object_record := mk_object {
  key : string;
  size : nat;
  last_modified : string;
  etag : string
}.

(** The statistics dictionary returned by [download_directory].  The key
    ['total_files'] is absent from the two early returns. *)
Record stats := mk_stats {
  success : bool;
  downloaded : nat;
  failed : nat;
  errors : list string;
  total_files : option nat
}.

(** [stats.get('total_files', d)] *)
Definition get_total_files (s : stats) (d : nat) : nat :=
  match total_files s with Some n => n | None => d end.

(** ** Pure stages of [download_directory] *)

(** [any(obj['key'].lower().endswith(ext.lower()) for ext in extensions)] *)
Fixpoint any_extension (k : string) (extensions : list string) : bool :=
  match extensions with
  | [] => false
  | ext :: rest =>
      if PyStr.endswith (PyStr.lower k) (PyStr.lower ext) then true
      else any_extension k rest
  end.

(** [[obj for obj in objects if any(...)]] *)
Fixpoint extension_comprehension (extensions : list string)
         (objects : list object_record) : list object_record :=
  match objects with
  | [] => []
  | obj :: rest =>
      if any_extension (key obj) extensions
      then obj :: extension_comprehension extensions rest
      else extension_comprehension extensions rest
  end.

(** Truth value of [extensions : Optional[List[str]]]. *)
Definition extensions_given (extensions : option (list string)) : bool :=
  match extensions with
  | None => false
  | Some [] => false
  | Some (_ :: _) => true
  end.

(** Lines 226-231: "Filter by extensions if specified". *)
Definition filter_by_extensions (extensions : option (list string))
           (objects : list object_record) : list object_record :=
  if extensions_given extensions
  then extension_comprehension
         (match extensions with Some l => l | None => [] end) objects
  else objects.

(** [l[:k]] for any integer [k] (a negative [k] counts from the end). *)
Definition slice_to {A : Type} (k : Z) (l : list A) : list A :=
  if (0 <=? k)%Z then firstn (Z.to_nat k) l
  else firstn (List.length l - Z.to_nat (- k)) l.

(** Lines 234-236: "Limit number of files if specified".
    [if max_files and len(objects) > max_files: objects = objects[:max_files]] *)
Definition limit_files {A : Type} (max_files : option Z) (objects : list A)
  : list A :=
  match max_files with
  | None => objects
  | Some m =>
      if negb (m =? 0)%Z && (m <? Z.of_nat (List.length objects))%Z
      then slice_to m objects
      else objects
  end.

(** Line 249: [object_key.endswith('/')] *)
Definition is_directory_marker (object_key : string) : bool :=
  PyStr.endswith object_key (String sep EmptyString).

(** Line 253: [object_key[len(prefix):].lstrip('/')] *)
Definition relative_path (object_key prefix : string) : string :=
  PyStr.lstrip sep (PyStr.slice_from (String.length prefix) object_key).

(** The records the download loop iterates over. *)
Definition selected_objects (extensions : option (list string))
           (max_files : option Z) (objects : list object_record)
  : list object_record :=
  limit_files max_files (filter_by_extensions extensions objects).

(** The records of a list that are not directory markers. *)
Definition eligible (objects : list object_record) : list object_record :=
  filter (fun obj => negb (is_directory_marker (key obj))) objects.

(** The records of a list that are directory markers. *)
Definition markers (objects : list object_record) : list object_record :=
  filter (fun obj => is_directory_marker (key obj)) objects.


(** ** Exceptions and the collaborators *)

(** The exceptions a collaborator call can raise, all of them subclasses
    of [Exception]: botocore's [ClientError] with its
    [response['Error']['Code']], or any other exception (an [OSError] of
    the file system, a connection error of the SDK, ...), by class name. *)
Inductive exn :=
| ClientError (error_code : string)
| OtherException (class_name : string).

(** The classes named in the [except] clauses of the source. *)
Inductive exn_class := ClientErrorClass | ExceptionClass.

(** [isinstance(e, cls)] *)
Definition isinstance (e : exn) (cls : exn_class) : bool :=
  match cls, e with
  | ExceptionClass, _ => true
  | ClientErrorClass, ClientError _ => true
  | ClientErrorClass, OtherException _ => false
  end.

(** A call either returns a value or raises. *)
Inductive outcome (A : Type) :=
| Return (a : A)
| Raise (e : exn).
Arguments Return {A} a.
Arguments Raise {A} e.

(** One object of a listing page, as the SDK delivers it. *)
Record s3_object := mk_s3_object {
  Key : string;
  Size : nat;
  LastModified : string;
  ETag : string
}.

(** A page of [list_objects_v2]: the ['Contents'] entry may be absent. *)
Definition page := option (list s3_object).

(** The calls made to the collaborators, each with the answer it got. *)
Inductive event :=
| EvPaginate (bucket prefix : string) (max_items : nat)
             (r : outcome (list page))
| EvMkdir (directory : string) (r : outcome unit)
| EvHeadObject (bucket object_key : string) (r : outcome nat)
| EvDownload (bucket object_key filename : string) (r : outcome unit).

Definition history := list event.

(** The storage client and the file system.  Each answer may depend on
    everything that happened before the call. *)
Record collaborators := mk_collaborators {
  (** iterating [paginator.paginate(Bucket, Prefix, PaginationConfig)] *)
  paginate : history -> string -> string -> nat -> outcome (list page);
  (** [Path.mkdir(parents=True, exist_ok=True)] *)
  mkdir : history -> string -> outcome unit;
  (** [s3_client.head_object(Bucket, Key)]['ContentLength'] *)
  head_object : history -> string -> string -> outcome nat;
  (** [s3_client.download_file(bucket, key, filename, Callback)] *)
  s3_download_file : history -> string -> string -> string -> outcome unit
}.

(** The [pathlib] operations of the source, on paths rendered as text. *)
Record pathlib := mk_pathlib {
  (** [str(Path(p))] *)
  path_of : string -> string;
  (** [base / rel] *)
  path_join : string -> string -> string;
  (** [p.parent] *)
  path_parent : string -> string;
  (** [Path(p).name] *)
  path_name : string -> string
}.

(** The fields of [S3Downloader] the modelled methods read. *)
Record S3Downloader := mk_S3Downloader {
  self_bucket_name : option string;
  self_download_path : string
}.

(** ** Computations: the history is threaded, an exception propagates *)

Definition M (A : Type) : Type := history -> outcome A * history.

Definition ret {A : Type} (a : A) : M A := fun h => (Return a, h).

Definition bind {A B : Type} (m : M A) (k : A -> M B) : M B :=
  fun h =>
    match m h with
    | (Return a, h') => k a h'
    | (Raise e, h') => (Raise e, h')
    end.

Notation "x <- m ;; k" := (bind m (fun x => k))
  (at level 61, m at next level, right associativity).
Notation "m ;;; k" := (bind m (fun _ => k))
  (at level 61, right associativity).

(** The first [except] clause whose class the exception is an instance of. *)
Fixpoint find_handler {A : Type} (e : exn)
         (handlers : list (exn_class * (exn -> M A))) : option (exn -> M A) :=
  match handlers with
  | [] => None
  | (cls, handler) :: rest =>
      if isinstance e cls then Some handler else find_handler e rest
  end.

(** [try: body  except cls1 as e: ...  except cls2 as e: ...] *)
Definition try_except {A : Type} (body : M A)
           (handlers : list (exn_class * (exn -> M A))) : M A :=
  fun h =>
    match body h with
    | (Return a, h') => (Return a, h')
    | (Raise e, h') =>
        match find_handler e handlers with
        | Some handler => handler e h'
        | None => (Raise e, h')
        end
    end.

(** Calling a collaborator records the call and its answer. *)
Definition call_paginate (c : collaborators) (bucket prefix : string)
           (max_items : nat) : M (list page) :=
  fun h => let r := paginate c h bucket prefix max_items in
           (r, h ++ [EvPaginate bucket prefix max_items r]).

Definition call_mkdir (c : collaborators) (directory : string) : M unit :=
  fun h => let r := mkdir c h directory in
           (r, h ++ [EvMkdir directory r]).

Definition call_head_object (c : collaborators) (bucket object_key : string)
  : M nat :=
  fun h => let r := head_object c h bucket object_key in
           (r, h ++ [EvHeadObject bucket object_key r]).

Definition call_download (c : collaborators)
           (bucket object_key filename : string) : M unit :=
  fun h => let r := s3_download_file c h bucket object_key filename in
           (r, h ++ [EvDownload bucket object_key filename r]).

(** [a or b] on [Optional[str]] values. *)
Definition py_or (a b : option string) : option string :=
  match a with
  | Some s => if PyStr.truthy s then a else b
  | None => b
  end.

(** The string of a truthy [Optional[str]]; [None] when it is falsy
    ([None] or the empty string). *)
Definition truthy_str (o : option string) : option string :=
  match o with
  | Some s => if PyStr.truthy s then Some s else None
  | None => None
  end.

(** ** The methods of [S3Downloader] *)

Section Methods.

Variable c : collaborators.
Variable P : pathlib.

(** The page loop of [list_objects] (lines 118-127). *)
Fixpoint collect_objects (pages : list page) : list object_record :=
  match pages with
  | [] => []
  | None :: rest => collect_objects rest
  | Some contents :: rest =>
      map (fun obj => mk_object (Key obj) (Size obj) (LastModified obj) (ETag obj))
          contents
      ++ collect_objects rest
  end.

(** [S3Downloader.list_objects] (lines 90-134). *)
Definition list_objects (self : S3Downloader) (bucket_name : option string)
           (prefix : string) (max_keys : nat) : M (list object_record) :=
  match truthy_str (py_or bucket_name (self_bucket_name self)) with
  | None => ret []
  | Some bucket =>
      try_except
        (pages <- call_paginate c bucket prefix max_keys ;;
         ret (collect_objects pages))
        [(ClientErrorClass, fun _ => ret [])]
  end.

(** The [except ClientError] clause of [download_file] (lines 184-192):
    the three branches differ in the message logged only. *)
Definition on_client_error (e : exn) : M bool :=
  match e with
  | ClientError error_code =>
      if String.eqb error_code "NoSuchKey" then ret false
      else if String.eqb error_code "NoSuchBucket" then ret false
      else ret false
  | OtherException _ => ret false
  end.

(** The [except Exception] clause of [download_file] (lines 193-195). *)
Definition on_exception (e : exn) : M bool := ret false.

(** [S3Downloader.download_file] (lines 136-195).  The directory is
    created before the [try] block is entered. *)
Definition download_file (self : S3Downloader) (object_key : string)
           (local_path : option string) (bucket_name : option string)
  : M bool :=
  match truthy_str (py_or bucket_name (self_bucket_name self)) with
  | None => ret false
  | Some bucket =>
      let local_file :=
        match truthy_str local_path with
        | Some p => path_of P p
        | None => path_join P (self_download_path self) (path_name P object_key)
        end in
      call_mkdir c (path_parent P local_file) ;;;
      try_except
        (file_size <- call_head_object c bucket object_key ;;
         call_download c bucket object_key local_file ;;;
         ret true)
        [(ClientErrorClass, on_client_error); (ExceptionClass, on_exception)]
  end.

(** The [for obj in objects] loop of [download_directory] (lines 245-260),
    with the three accumulators [downloaded], [failed] and [errors]. *)
Fixpoint download_loop (self : S3Downloader) (prefix bucket : string)
         (objects : list object_record)
         (downloaded failed : nat) (errors : list string)
  : M (nat * nat * list string) :=
  match objects with
  | [] => ret (downloaded, failed, errors)
  | obj :: rest =>
      let object_key := key obj in
      if is_directory_marker object_key
      then download_loop self prefix bucket rest downloaded failed errors
      else
        let local_file :=
          path_join P (self_download_path self) (relative_path object_key prefix) in
        ok <- download_file self object_key (Some local_file) (Some bucket) ;;
        if ok : bool
        then download_loop self prefix bucket rest (downloaded + 1) failed errors
        else download_loop self prefix bucket rest downloaded (failed + 1)
                           (errors ++ [object_key])
  end.

(** [S3Downloader.download_directory] (lines 197-271). *)
Definition download_directory (self : S3Downloader) (prefix : string)
           (extensions : option (list string)) (bucket_name : option string)
           (max_files : option Z) : M stats :=
  match truthy_str (py_or bucket_name (self_bucket_name self)) with
  | None => ret (mk_stats false 0 0 [] None)
  | Some bucket =>
      objects <- list_objects self (Some bucket) prefix 1000 ;;
      match objects with
      | [] => ret (mk_stats true 0 0 [] None)
      | _ :: _ =>
          let objects := filter_by_extensions extensions objects in
          let objects := limit_files max_files objects in
          r <- download_loop self prefix bucket objects 0 0 [] ;;
          let '(downloaded, failed, errors) := r in
          ret (mk_stats (failed =? 0)%nat downloaded failed errors
                        (Some (List.length objects)))
      end
  end.

End Methods.

(** ** The report *)

(** [a / b] on integers: true division, a [ZeroDivisionError] when
    [b = 0].  The conversion to binary64 is exact for counts below 2^53,
    where the quotient of the floats is the correctly rounded quotient
    Python computes. *)
Definition float_of_nat (n : nat) : float :=
  PrimFloat.of_uint63 (Uint63.of_Z (Z.of_nat n)).

Definition py_truediv (a b : nat) : outcome float :=
  match b with
  | O => Raise (OtherException "ZeroDivisionError")
  | S _ => Return (PrimFloat.div (float_of_nat a) (float_of_nat b))
  end.

(** [num / den] rounded to the nearest integer, ties to even ([den > 0]). *)
Definition round_half_even (num den : Z) : Z :=
  let q := (num / den)%Z in
  let r := (num mod den)%Z in
  if (2 * r <? den)%Z then q
  else if (den <? 2 * r)%Z then (q + 1)%Z
  else if Z.even q then q else (q + 1)%Z.

(** The value [m * 2^e] in tenths, correctly rounded. *)
Definition tenths (m : positive) (e : Z) : Z :=
  if (0 <=? e)%Z then (Z.pos m * 2 ^ e * 10)%Z
  else round_half_even (Z.pos m * 10) (2 ^ (- e)).

(** [str(n)] for a non-negative integer. *)
Definition str_of_nat (n : nat) : string :=
  NilZero.string_of_uint (Nat.to_uint n).

Definition sign_text (negative : bool) : string :=
  if negative then "-" else "".

(** [f"{x:.1f}"]: the decimal with one fractional digit nearest to the
    exact value of the float, ties to even. *)
Definition format_1f (x : float) : string :=
  match Prim2SF x with
  | S754_zero s => sign_text s ++ "0.0"
  | S754_infinity s => sign_text s ++ "inf"
  | S754_nan => "nan"
  | S754_finite s m e =>
      let t := tenths m e in
      sign_text s ++ str_of_nat (Z.to_nat (t / 10)) ++ "."
                ++ str_of_nat (Z.to_nat (t mod 10))
  end.

(** The line feed of the report template. *)
Definition nl : string := String (ascii_of_nat 10) EmptyString.

(** [str(x)] for an [Optional[str]]. *)
Definition str_of_optional (o : option string) : string :=
  match o with Some s => s | None => "None" end.

(** The expression of the "Success rate" field (line 321):
    [stats.get('downloaded', 0) / max(stats.get('total_files', 1), 1) * 100] *)
Definition success_rate (s : stats) : outcome float :=
  match py_truediv (downloaded s) (Nat.max (get_total_files s 1) 1) with
  | Return q => Return (PrimFloat.mul q (float_of_nat 100))
  | Raise e => Raise e
  end.

(** The loop over [stats['errors']] (lines 325-328). *)
Fixpoint failed_files_lines (errors : list string) : string :=
  match errors with
  | [] => ""
  | error :: rest => "  - " ++ error ++ nl ++ failed_files_lines rest
  end.

(** The text of the report once the rate has been computed. *)
Definition report_text (now : string) (self : S3Downloader) (s : stats)
           (rate : float) : string :=
  nl ++ "=== S3 Download Report ===" ++ nl
     ++ "Timestamp: " ++ now ++ nl
     ++ "Bucket: " ++ str_of_optional (self_bucket_name self) ++ nl
     ++ "Download Path: " ++ self_download_path self ++ nl
     ++ nl
     ++ "Statistics:" ++ nl
     ++ "- Total files processed: " ++ str_of_nat (get_total_files s 0) ++ nl
     ++ "- Successfully downloaded: " ++ str_of_nat (downloaded s) ++ nl
     ++ "- Failed downloads: " ++ str_of_nat (failed s) ++ nl
     ++ "- Success rate: " ++ format_1f rate ++ "%" ++ nl
     ++ nl
     ++ match errors s with
        | [] => ""
        | _ :: _ => "Failed files:" ++ nl ++ failed_files_lines (errors s)
        end.

(** [S3Downloader.generate_download_report] (lines 309-330); [now] is
    [datetime.now().strftime('%Y-%m-%d %H:%M:%S')]. *)
Definition generate_download_report (now : string) (self : S3Downloader)
           (s : stats) : outcome string :=
  match success_rate s with
  | Return rate => Return (report_text now self s rate)
  | Raise e => Raise e
  end.

(** The invariant of the batch statistics: the attempts counted do not
    exceed the files counted. *)
Definition batch_invariant (s : stats) : Prop :=
  downloaded s + failed s <= get_total_files s 0.

(** ** Vocabulary of the properties *)

(** Two texts that differ in the case of their letters only. *)
Inductive eq_ignore_case : string -> string -> Prop :=
| eic_empty : eq_ignore_case EmptyString EmptyString
| eic_char (a b : ascii) (s t : string) :
    PyStr.lower_ascii a = PyStr.lower_ascii b ->
    eq_ignore_case s t ->
    eq_ignore_case (String a s) (String b t).

(** [k] ends, up to the case of letters, in [ext]. *)
Definition ends_with_ignoring_case (k ext : string) : Prop :=
  exists front back, k = (front ++ back)%string /\ eq_ignore_case back ext.

(** The key of a record ends, up to case, in one element of the allow-list. *)
Definition allowed (extensions : list string) (obj : object_record) : Prop :=
  exists ext, In ext extensions /\ ends_with_ignoring_case (key obj) ext.

(** [kept] holds exactly the elements of [l] that satisfy [keep], each as
    often as in [l] and in the order of [l]. *)
Inductive keeps_exactly {A : Type} (keep : A -> Prop) : list A -> list A -> Prop :=
| keeps_nil : keeps_exactly keep [] []
| keeps_take (x : A) (l kept : list A) :
    keep x -> keeps_exactly keep l kept ->
    keeps_exactly keep (x :: l) (x :: kept)
| keeps_drop (x : A) (l kept : list A) :
    ~ keep x -> keeps_exactly keep l kept ->
    keeps_exactly keep (x :: l) kept.

(** [s] is a subsequence of [l]: elements of [l] in their relative order. *)
Inductive subsequence {A : Type} : list A -> list A -> Prop :=
| subseq_nil : subsequence [] []
| subseq_take (x : A) (s l : list A) :
    subsequence s l -> subsequence (x :: s) (x :: l)
| subseq_skip (x : A) (s l : list A) :
    subsequence s l -> subsequence s (x :: l).

(** The keys [head_object] was asked for: by [download_file] the first
    call to the storage client of every download attempt. *)
Definition attempted_keys (t : history) : list string :=
  flat_map (fun ev => match ev with
                      | EvHeadObject _ k _ => [k]
                      | _ => []
                      end) t.

(** The keys for which a call to the storage client raised. *)
Definition failed_keys (t : history) : list string :=
  flat_map (fun ev => match ev with
                      | EvHeadObject _ k (Raise _) => [k]
                      | EvDownload _ k _ (Raise _) => [k]
                      | _ => []
                      end) t.

(** The keys whose transfer completed. *)
Definition completed_keys (t : history) : list string :=
  flat_map (fun ev => match ev with
                      | EvDownload _ k _ (Return _) => [k]
                      | _ => []
                      end) t.

(** Directory creation never raises. *)
Definition mkdir_succeeds (c : collaborators) : Prop :=
  forall h directory, mkdir c h directory = Return tt.

(** What one call of [download_file] for [object_key] can do: the calls
    it makes ([t]) and how it ends ([r]). *)
Inductive download_file_run (object_key : string)
  : history -> outcome bool -> Prop :=
| run_no_bucket :
    download_file_run object_key [] (Return false)
| run_mkdir_raises (d : string) (e : exn) :
    download_file_run object_key [EvMkdir d (Raise e)] (Raise e)
| run_head_raises (d bucket : string) (e : exn) :
    download_file_run object_key
      [EvMkdir d (Return tt); EvHeadObject bucket object_key (Raise e)]
      (Return false)
| run_transfer_raises (d bucket filename : string) (n : nat) (e : exn) :
    download_file_run object_key
      [EvMkdir d (Return tt); EvHeadObject bucket object_key (Return n);
       EvDownload bucket object_key filename (Raise e)]
      (Return false)
| run_transfer_completes (d bucket filename : string) (n : nat) :
    download_file_run object_key
      [EvMkdir d (Return tt); EvHeadObject bucket object_key (Return n);
       EvDownload bucket object_key filename (Return tt)]
      (Return true).

(** The statistics a run returned, if it returned. *)
Definition returned_stats (r : outcome stats * history) : option stats :=
  match fst r with Return s => Some s | Raise _ => None end.

(** ** Sample worlds *)

Fixpoint rev_onto (s acc : string) : string :=
  match s with
  | EmptyString => acc
  | String a t => rev_onto t (String a acc)
  end.

Fixpoint after_first_sep (s : string) : string :=
  match s with
  | EmptyString => EmptyString
  | String a t => if Ascii.eqb a sep then t else after_first_sep t
  end.

Fixpoint before_first_sep (s : string) : string :=
  match s with
  | EmptyString => EmptyString
  | String a t => if Ascii.eqb a sep then EmptyString
                  else String a (before_first_sep t)
  end.

(** Paths as plain text with ["/"] between the components. *)
Definition text_paths : pathlib :=
  {| path_of := fun p => p;
     path_join := fun base rel => (base ++ "/" ++ rel)%string;
     path_parent := fun p => rev_onto (after_first_sep (rev_onto p "")) "";
     path_name := fun p => rev_onto (before_first_sep (rev_onto p "")) "" |}.

Fixpoint mem_string (k : string) (l : list string) : bool :=
  match l with
  | [] => false
  | x :: rest => if String.eqb k x then true else mem_string k rest
  end.

(** A bucket that lists [contents] on one page and has lost the objects
    named in [missing]: asking for one of them raises [NoSuchKey]. *)
Definition sample_bucket (contents : list s3_object) (missing : list string)
  : collaborators :=
  {| paginate := fun _ _ _ _ => Return [Some contents];
     mkdir := fun _ _ => Return tt;
     head_object := fun _ _ k =>
       if mem_string k missing then Raise (ClientError "NoSuchKey")
       else Return 1024;
     s3_download_file := fun _ _ _ _ => Return tt |}.

Definition obj_of (k : string) : s3_object :=
  mk_s3_object k 1024 "2024-01-01 00:00:00" "etag".

Definition rec_of (k : string) : object_record :=
  mk_object k 1024 "2024-01-01 00:00:00" "etag".

(** A listing under ["images/"]: the directory marker and three files. *)
Definition sample_contents : list s3_object :=
  [obj_of "images/"; obj_of "images/a.png"; obj_of "images/b.JPG";
   obj_of "images/sub/c.png"].

Definition sample_listing : list object_record :=
  [rec_of "images/"; rec_of "images/a.png"; rec_of "images/b.JPG";
   rec_of "images/sub/c.png"].

(** The history after the listing call of the sample bucket. *)
Definition listed (contents : list s3_object) : history :=
  [EvPaginate "photos" "images/" 1000 (Return [Some contents])].

Definition images_downloader : S3Downloader :=
  mk_S3Downloader (Some "photos") "downloads".

Definition unconfigured_downloader : S3Downloader :=
  mk_S3Downloader None "downloads".

(** ** Further methods and callers *)

(** The answer of [s3_client.head_object] as [get_file_info] reads it:
    ['ContentType'] and ['Metadata'] may be absent. *)
Record head_response := mk_head_response {
  ContentLength : nat;
  ResponseLastModified : string;
  ResponseETag : string;
  ContentType : option string;
  Metadata : option (list (string * string))
}.

(** The dictionary built by [get_file_info]. *)
Record file_info := mk_file_info {
  info_key : string;
  info_size : nat;
  info_last_modified : string;
  info_etag : string;
  info_content_type : string;
  info_metadata : list (string * string)
}.

(** [d.get(k, default)] on an entry that may be absent. *)
Definition get_default {A : Type} (entry : option A) (default : A) : A :=
  match entry with Some v => v | None => default end.

(** [S3Downloader.get_file_info] (lines 273-307); [head] is the answer of
    [s3_client.head_object(Bucket, Key)].  Only [ClientError] is caught. *)
Definition get_file_info (head : string -> string -> outcome head_response)
           (self : S3Downloader) (object_key : string)
           (bucket_name : option string) : outcome (option file_info) :=
  match truthy_str (py_or bucket_name (self_bucket_name self)) with
  | None => Return None
  | Some bucket =>
      match head bucket object_key with
      | Return response =>
          Return (Some (mk_file_info object_key
                          (ContentLength response)
                          (ResponseLastModified response)
                          (ResponseETag response)
                          (get_default (ContentType response) "unknown")
                          (get_default (Metadata response) [])))
      | Raise e =>
          if isinstance e ClientErrorClass then Return None else Raise e
      end
  end.

(** [S3Downloader.list_buckets] (lines 79-88); [answer] is the list of
    the ['Name'] entries of [s3_client.list_buckets()], or what it raised. *)
Definition list_buckets (answer : outcome (list string))
  : outcome (list string) :=
  match answer with
  | Return buckets => Return buckets
  | Raise e => if isinstance e ClientErrorClass then Return [] else Raise e
  end.

(** [stats['total_files']]: a [KeyError] when the entry is absent. *)
Definition getitem_total_files (s : stats) : outcome nat :=
  match total_files s with
  | Some n => Return n
  | None => Raise (OtherException "KeyError")
  end.

(** The four [print] calls after the batch of Example 5 in
    [example_usage.main] (lines 55-58): the lines printed, and how the
    block ends. *)
Definition example5_summary (s : stats) : list string * outcome unit :=
  let printed :=
    ["Download complete:";
     "  - Downloaded: " ++ str_of_nat (downloaded s);
     "  - Failed: " ++ str_of_nat (failed s)]%string in
  match getitem_total_files s with
  | Raise e => (printed, Raise e)
  | Return total =>
      match py_truediv (downloaded s) (Nat.max total 1) with
      | Raise e => (printed, Raise e)
      | Return q =>
          (printed ++
           ["  - Success rate: "
              ++ format_1f (PrimFloat.mul q (float_of_nat 100)) ++ "%"]%string,
           Return tt)
      end
  end.

(** Example 5 of [example_usage.main] (lines 49-58): the batch over
    ["images/"] with four extensions and at most ten files, then the
    summary. *)
Definition example5 (c : collaborators) (P : pathlib)
           (downloader : S3Downloader) (h : history)
  : list string * outcome unit * history :=
  match download_directory c P downloader "images/"
          (Some [".jpg"; ".png"; ".gif"; ".webp"]) None (Some 10%Z) h with
  | (Return s, h') => (example5_summary s, h')
  | (Raise e, h') => (([], Raise e), h')
  end.

(** The parsed command line, as far as the dispatch of [main] reads it. *)
Record cli_args := mk_cli_args {
  arg_bucket : option string;
  arg_list_buckets : bool;
  arg_list_objects : bool;
  arg_prefix : string;
  arg_download_file : option string;
  arg_download_dir : option string;
  arg_local_path : option string;
  arg_extensions : option (list string);
  arg_max_files : option Z
}.

(** What the dispatch of [main] did: what it printed, or how it left. *)
Inductive main_outcome :=
| PrintedBuckets (buckets : list string)
| PrintedObjects (objects : list object_record)
| BucketRequired
| PrintedFileResult (ok : bool)
| PrintedReport (s : stats) (report report_file : string)
| PrintedHelp
| NothingDone
| Exit1 (e : exn).

(** [bool(x)] of an [Optional[str]]. *)
Definition given (o : option string) : bool :=
  match truthy_str o with Some _ => true | None => false end.

(** The [try] block of [main] (lines 400-472) on a constructed
    downloader: the first action requested is carried out and [main]
    returns; an exception ends the process with status 1.  [buckets] is
    the answer of the bucket listing, [now] the clock of the report, and
    [write_file] the writing of the report file. *)
Definition main_dispatch (c : collaborators) (P : pathlib)
           (buckets : outcome (list string)) (now : string)
           (write_file : string -> string -> outcome unit)
           (downloader : S3Downloader) (args : cli_args) (h : history)
  : main_outcome * history :=
  if arg_list_buckets args then
    match list_buckets buckets with
    | Return names => (PrintedBuckets names, h)
    | Raise e => (Exit1 e, h)
    end
  else if arg_list_objects args then
    if negb (given (arg_bucket args)) then (BucketRequired, h)
    else
      match list_objects c downloader (arg_bucket args) (arg_prefix args)
                         1000 h with
      | (Return objects, h') => (PrintedObjects objects, h')
      | (Raise e, h') => (Exit1 e, h')
      end
  else if given (arg_download_file args) then
    if negb (given (arg_bucket args)) then (BucketRequired, h)
    else
      match download_file c P downloader
                          (get_default (arg_download_file args) "")
                          (arg_local_path args) (arg_bucket args) h with
      | (Return ok, h') => (PrintedFileResult ok, h')
      | (Raise e, h') => (Exit1 e, h')
      end
  else if given (arg_download_dir args) then
    if negb (given (arg_bucket args)) then (BucketRequired, h)
    else
      match download_directory c P downloader
                               (get_default (arg_download_dir args) "")
                               (arg_extensions args) (arg_bucket args)
                               (arg_max_files args) h with
      | (Return s, h') =>
          match generate_download_report now downloader s with
          | Return report =>
              let report_file :=
                path_join P (self_download_path downloader)
                          "download_report.txt" in
              match write_file report_file report with
              | Return _ => (PrintedReport s report report_file, h')
              | Raise e => (Exit1 e, h')
              end
          | Raise e => (Exit1 e, h')
          end
      | (Raise e, h') => (Exit1 e, h')
      end
  else if negb (arg_list_buckets args || arg_list_objects args
                || given (arg_download_file args)
                || given (arg_download_dir args))
  then (PrintedHelp, h)
  else (NothingDone, h).

(** ** Further vocabulary *)

(** The listing calls of a trace. *)
Definition listing_calls (t : history) : list event :=
  filter (fun ev => match ev with EvPaginate _ _ _ _ => true | _ => false end) t.

(** The file names transfers were started for. *)
Definition transfer_targets (t : history) : list string :=
  flat_map (fun ev => match ev with
                      | EvDownload _ _ filename _ => [filename]
                      | _ => []
                      end) t.

(** The directories that were to be created. *)
Definition created_directories (t : history) : list string :=
  flat_map (fun ev => match ev with
                      | EvMkdir d _ => [d]
                      | _ => []
                      end) t.

(** The text of the success rate for [downloaded] out of [total] files. *)
Definition rate_text (downloaded total : nat) : string :=
  match success_rate (mk_stats true downloaded 0 [] (Some total)) with
  | Return rate => format_1f rate
  | Raise _ => "error"
  end.

(** ** Further sample worlds *)

(** A bucket the caller may not list: pagination raises [AccessDenied]. *)
Definition denied_bucket : collaborators :=
  {| paginate := fun _ _ _ _ => Raise (ClientError "AccessDenied");
     mkdir := fun _ _ => Return tt;
     head_object := fun _ _ _ => Return 1024;
     s3_download_file := fun _ _ _ _ => Return tt |}.

(** No network: pagination raises a connection error of the SDK. *)
Definition offline_bucket : collaborators :=
  {| paginate := fun _ _ _ _ => Raise (OtherException "EndpointConnectionError");
     mkdir := fun _ _ => Return tt;
     head_object := fun _ _ _ => Return 1024;
     s3_download_file := fun _ _ _ _ => Return tt |}.

(** The sample bucket with a download directory that is not writable. *)
Definition readonly_target (contents : list s3_object) : collaborators :=
  {| paginate := fun _ _ _ _ => Return [Some contents];
     mkdir := fun _ _ => Raise (OtherException "PermissionError");
     head_object := fun _ _ _ => Return 1024;
     s3_download_file := fun _ _ _ _ => Return tt |}.

(** The command line [--bucket photos --download-dir images/]. *)
Definition download_images_args : cli_args :=
  mk_cli_args (Some "photos") false false "" None (Some "images/")
              None None None.

(** * Properties *)

(** ** Texts *)

Section TextFacts.

Local Open Scope string_scope.

Lemma length_app (a b : string) :
  String.length (a ++ b) = String.length a + String.length b.
Proof. induction a as [|x a IH]; simpl; [reflexivity | now rewrite IH]. Qed.

Lemma length_lower (s : string) :
  String.length (PyStr.lower s) = String.length s.
Proof. induction s as [|x s IH]; simpl; [reflexivity | now rewrite IH]. Qed.

Lemma lower_app (a b : string) :
  PyStr.lower (a ++ b) = PyStr.lower a ++ PyStr.lower b.
Proof. induction a as [|x a IH]; simpl; [reflexivity | now rewrite IH]. Qed.

Lemma slice_from_app (a b : string) :
  PyStr.slice_from (String.length a) (a ++ b) = b.
Proof. induction a as [|x a IH]; simpl; [now destruct b | exact IH]. Qed.

(** Every text splits at any position into what [s[n:]] drops and keeps. *)
Lemma slice_from_split (n : nat) (s : string) :
  n <= String.length s ->
  exists front, s = front ++ PyStr.slice_from n s /\ String.length front = n.
Proof.
  revert s; induction n as [|n IH]; intros s Hn.
  - exists ""; split; [now destruct s | reflexivity].
  - destruct s as [|x s]; simpl in Hn; [lia |].
    destruct (IH s) as [front [Hs Hl]]; [lia |].
    exists (String x front); simpl; split; [now rewrite <- Hs | now rewrite Hl].
Qed.

Lemma app_inj_by_length (a b a' b' : string) :
  a ++ b = a' ++ b' -> String.length a = String.length a' ->
  a = a' /\ b = b'.
Proof.
  revert a'; induction a as [|x a IH]; intros [|y a'] H Hl;
    simpl in *; try discriminate.
  - now split.
  - injection H as -> H. destruct (IH a' H) as [-> ->]; [lia | now split].
Qed.

Lemma endswith_spec (s suffix : string) :
  PyStr.endswith s suffix = true <-> exists front, s = front ++ suffix.
Proof.
  unfold PyStr.endswith; split.
  - destruct (Nat.leb_spec (String.length suffix) (String.length s)) as [Hle|];
      [| discriminate].
    intros H; apply String.eqb_eq in H.
    destruct (slice_from_split (String.length s - String.length suffix) s)
      as [front [Hs _]]; [lia |].
    exists front; now rewrite <- H.
  - intros [front ->]. rewrite length_app.
    destruct (Nat.leb_spec (String.length suffix)
                           (String.length front + String.length suffix));
      [| lia].
    replace (String.length front + String.length suffix - String.length suffix)
      with (String.length front) by lia.
    rewrite slice_from_app. apply String.eqb_refl.
Qed.

Lemma lower_eq_ignore_case (a b : string) :
  PyStr.lower a = PyStr.lower b <-> eq_ignore_case a b.
Proof.
  split.
  - revert b; induction a as [|x a IH]; intros [|y b] H;
      simpl in H; try discriminate.
    + constructor.
    + injection H as Hc Hr. constructor; [exact Hc | now apply IH].
  - induction 1 as [|x y s t Hc _ IH]; simpl; [reflexivity | now rewrite Hc, IH].
Qed.

(** The test of the filter is the case-insensitive suffix relation. *)
Lemma endswith_lower_spec (k ext : string) :
  PyStr.endswith (PyStr.lower k) (PyStr.lower ext) = true
  <-> ends_with_ignoring_case k ext.
Proof.
  rewrite endswith_spec; split.
  - intros [front H].
    assert (Hlen : String.length ext <= String.length k).
    { apply (f_equal String.length) in H.
      rewrite length_app, !length_lower in H. lia. }
    destruct (slice_from_split (String.length k - String.length ext) k)
      as [kfront [Hk Hl]]; [lia |].
    set (back := PyStr.slice_from (String.length k - String.length ext) k) in *.
    exists kfront, back; split; [exact Hk |].
    apply lower_eq_ignore_case.
    rewrite Hk, lower_app in H.
    apply app_inj_by_length in H; [tauto |].
    apply (f_equal String.length) in H.
    rewrite !length_app, !length_lower in H.
    apply (f_equal String.length) in Hk. rewrite length_app in Hk.
    rewrite length_lower. lia.
  - intros [front [back [-> Hci]]].
    exists (PyStr.lower front).
    rewrite lower_app. f_equal. now apply lower_eq_ignore_case.
Qed.

Lemma lstrip_no_leading (ch : ascii) (s : string) :
  PyStr.startswith (PyStr.lstrip ch s) (String ch "") = false.
Proof.
  induction s as [|x s IH]; simpl; [reflexivity |].
  destruct (Ascii.eqb x ch) eqn:E; [exact IH |].
  simpl. rewrite Ascii.eqb_sym, E. reflexivity.
Qed.

End TextFacts.

(** ** The filter stage *)

Lemma any_extension_spec (k : string) (extensions : list string) :
  any_extension k extensions = true
  <-> exists ext, In ext extensions /\ ends_with_ignoring_case k ext.
Proof.
  induction extensions as [|ext rest IH]; simpl.
  - split; [discriminate | intros [? [[] _]]].
  - destruct (PyStr.endswith (PyStr.lower k) (PyStr.lower ext)) eqn:E.
    + split; [intros _ | reflexivity].
      exists ext; split; [now left | now apply endswith_lower_spec].
    + rewrite IH; split.
      * intros [x [Hin Hx]]; exists x; split; [now right | exact Hx].
      * intros [x [[<- | Hin] Hx]].
        -- apply endswith_lower_spec in Hx. congruence.
        -- now exists x.
Qed.

Lemma extension_comprehension_keeps (extensions : list string)
      (objects : list object_record) :
  keeps_exactly (allowed extensions) objects
                (extension_comprehension extensions objects).
Proof.
  induction objects as [|obj rest IH]; simpl; [constructor |].
  destruct (any_extension (key obj) extensions) eqn:E.
  - apply keeps_take; [now apply any_extension_spec | exact IH].
  - apply keeps_drop; [| exact IH].
    intros H; apply any_extension_spec in H; congruence.
Qed.

Lemma keeps_exactly_In {A : Type} (keep : A -> Prop) (l kept : list A) :
  keeps_exactly keep l kept ->
  forall x, In x kept <-> In x l /\ keep x.
Proof.
  induction 1 as [|y l kept Hy _ IH|y l kept Hy _ IH]; intros x; simpl.
  - tauto.
  - rewrite IH; split; [intros [<- | [? ?]]; tauto | tauto].
  - rewrite IH; split; [tauto | intros [[<- | ?] ?]; tauto].
Qed.

Lemma keeps_exactly_subsequence {A : Type} (keep : A -> Prop)
      (l kept : list A) :
  keeps_exactly keep l kept -> subsequence kept l.
Proof. induction 1; constructor; assumption. Qed.

Lemma subsequence_refl {A : Type} (l : list A) : subsequence l l.
Proof. induction l; constructor; assumption. Qed.

(** C5. The filter stage keeps exactly the records whose key ends, up to
    the case of letters, in some element of a non-empty allow-list (each
    kept record once per occurrence, in listing order); with the
    allow-list absent or empty the listing is returned unchanged. *)
Theorem filter_by_extensions_exact :
  forall (L : list object_record) (ext : string) (exts : list string),
    keeps_exactly (allowed (ext :: exts)) L
                  (filter_by_extensions (Some (ext :: exts)) L)
    /\ filter_by_extensions None L = L
    /\ filter_by_extensions (Some []) L = L.
Proof.
  intros L ext exts. split; [| split; reflexivity].
  apply (extension_comprehension_keeps (ext :: exts) L).
Qed.

(** C10. The filter stage returns a subsequence of the listing: the
    surviving records keep their relative order. *)
Theorem filter_by_extensions_subsequence :
  forall (L : list object_record) (E : option (list string)),
    subsequence (filter_by_extensions E L) L.
Proof.
  intros L [[|ext exts]|]; try apply subsequence_refl.
  eapply keeps_exactly_subsequence, extension_comprehension_keeps.
Qed.

(** ** The truncation stage *)

(** A positive cap keeps the first [min(len(L), M)] records. *)
Lemma limit_files_positive {A : Type} (M : Z) (L : list A) :
  (0 < M)%Z ->
  limit_files (Some M) L = firstn (Z.to_nat M) L
  /\ List.length (limit_files (Some M) L) = Nat.min (List.length L) (Z.to_nat M).
Proof.
  intros HM. unfold limit_files, slice_to.
  destruct (Z.eqb_spec M 0) as [|_]; [lia |]. simpl.
  destruct (Z.ltb_spec M (Z.of_nat (List.length L))) as [Hlt|Hge].
  - destruct (Z.leb_spec 0 M); [| lia].
    split; [reflexivity |]. rewrite length_firstn. lia.
  - assert (Hall : firstn (Z.to_nat M) L = L) by (apply firstn_all2; lia).
    rewrite Hall. split; [reflexivity | lia].
Qed.

(** C2. With the cap [max_files = 0] the truncation stage keeps every
    record: the result has [len(L)] records and not [min(len(L), 0)]. *)
Theorem limit_files_zero_keeps_all :
  (forall (L : list object_record), limit_files (Some 0%Z) L = L)
  /\ List.length (limit_files (Some 0%Z) [rec_of "a.jpg"; rec_of "b.jpg"]) = 2
  /\ Nat.min (List.length [rec_of "a.jpg"; rec_of "b.jpg"]) (Z.to_nat 0) = 0.
Proof. repeat split. Qed.

(** ** The path mapping *)

(** C4, as stated, fails: a key that repeats the prefix maps to a path
    that starts with the prefix. *)
Lemma relative_path_repeated_prefix :
  relative_path "images/images/x.png" "images/" = "images/x.png"
  /\ PyStr.startswith (relative_path "images/images/x.png" "images/")
                      "images/" = true.
Proof. split; reflexivity. Qed.

(** C4, amended. The path mapping drops the first [len(prefix)]
    characters of the key and then every leading separator: the result
    never starts with a separator; for a key [prefix ++ rest] it is
    [rest] without its leading separators, so one occurrence of the
    prefix is removed; and prefix ["images/"] with key
    ["images/sub/x.png"] gives ["sub/x.png"]. *)
Theorem relative_path_spec :
  (forall object_key prefix,
      PyStr.startswith (relative_path object_key prefix) "/" = false)
  /\ (forall prefix rest,
         relative_path (prefix ++ rest) prefix = PyStr.lstrip sep rest)
  /\ relative_path "images/sub/x.png" "images/" = "sub/x.png".
Proof.
  repeat split.
  - intros object_key prefix. apply lstrip_no_leading.
  - intros prefix rest. unfold relative_path. now rewrite slice_from_app.
Qed.

(** ** One download *)

Section Runs.

Variable c : collaborators.
Variable P : pathlib.

Lemma truthy_str_Some (o : option string) (s : string) :
  truthy_str o = Some s -> PyStr.truthy s = true.
Proof.
  destruct o as [x|]; simpl; [| discriminate].
  destruct (PyStr.truthy x) eqn:E; [| discriminate].
  now intros [= <-].
Qed.

Lemma truthy_str_py_or (bucket : string) (other : option string) :
  PyStr.truthy bucket = true ->
  truthy_str (py_or (Some bucket) other) = Some bucket.
Proof. intros H. simpl. rewrite H. simpl. now rewrite H. Qed.

(** The two [except] clauses of [download_file] catch every exception
    and answer [False]. *)
Lemma handlers_catch_all (e : exn) (h : history) :
  match find_handler e [(ClientErrorClass, on_client_error);
                        (ExceptionClass, on_exception)] with
  | Some handler => handler e h
  | None => (Raise e, h)
  end = (Return false, h).
Proof.
  destruct e as [code|name]; simpl; [| reflexivity].
  unfold ret.
  destruct (String.eqb code "NoSuchKey"); [reflexivity |].
  destruct (String.eqb code "NoSuchBucket"); reflexivity.
Qed.

(** Whatever the collaborators answer, a call of [download_file] is one
    of the five runs of [download_file_run]. *)
Lemma download_file_cases (self : S3Downloader) (object_key : string)
      (local_path bucket_name : option string) (h : history) :
  exists t r,
    download_file c P self object_key local_path bucket_name h = (r, h ++ t)
    /\ download_file_run object_key t r.
Proof.
  unfold download_file.
  destruct (truthy_str (py_or bucket_name (self_bucket_name self))) as [bucket|].
  2:{ exists [], (Return false). split; [now rewrite app_nil_r | constructor]. }
  set (local_file := match truthy_str local_path with
                     | Some p => path_of P p
                     | None => path_join P (self_download_path self)
                                         (path_name P object_key)
                     end).
  unfold bind, try_except, call_mkdir, call_head_object, call_download, ret.
  destruct (mkdir c h (path_parent P local_file)) as [[]|e] eqn:Em.
  2:{ eexists _, _. split; [reflexivity | constructor]. }
  destruct (head_object c _ bucket object_key) as [n|e] eqn:Eh.
  2:{ exists [EvMkdir (path_parent P local_file) (Return tt);
              EvHeadObject bucket object_key (Raise e)], (Return false).
      split; [| constructor].
      rewrite handlers_catch_all. now rewrite <- app_assoc. }
  destruct (s3_download_file c _ bucket object_key local_file) as [[]|e] eqn:Ed.
  - exists [EvMkdir (path_parent P local_file) (Return tt);
            EvHeadObject bucket object_key (Return n);
            EvDownload bucket object_key local_file (Return tt)], (Return true).
    split; [| constructor]. now rewrite <- !app_assoc.
  - exists [EvMkdir (path_parent P local_file) (Return tt);
            EvHeadObject bucket object_key (Return n);
            EvDownload bucket object_key local_file (Raise e)], (Return false).
    split; [| constructor].
    rewrite handlers_catch_all. now rewrite <- !app_assoc.
Qed.

(** C9. For every object key, whatever the storage client answers,
    [download_file] ends in one of five ways: any exception raised by the
    metadata call or by the transfer (a [ClientError] with any error
    code, or any other exception) yields [False]; [True] is returned
    only after the transfer has completed; and no exception of the
    storage client passes the boundary (only directory creation, which
    precedes the [try] block, can). *)
Theorem download_file_boundary :
  forall (self : S3Downloader) (object_key : string)
         (local_path bucket_name : option string) (h : history),
  exists t r,
    download_file c P self object_key local_path bucket_name h = (r, h ++ t)
    /\ download_file_run object_key t r.
Proof. exact download_file_cases. Qed.

(** With a bucket and a working file system, a call of [download_file]
    is one attempt: [head_object] is asked once for the key, and the
    result tells whether a storage call raised. *)
Lemma download_file_attempt (self : S3Downloader) (object_key bucket : string)
      (local_path : option string) (h : history) :
  mkdir_succeeds c -> PyStr.truthy bucket = true ->
  exists t ok,
    download_file c P self object_key local_path (Some bucket) h
    = (Return ok, h ++ t)
    /\ attempted_keys t = [object_key]
    /\ failed_keys t = (if ok then [] else [object_key])
    /\ completed_keys t = (if ok then [object_key] else []).
Proof.
  intros Hmk Hb. unfold download_file.
  rewrite (truthy_str_py_or bucket _ Hb).
  set (local_file := match truthy_str local_path with
                     | Some p => path_of P p
                     | None => path_join P (self_download_path self)
                                         (path_name P object_key)
                     end).
  unfold bind, try_except, call_mkdir, call_head_object, call_download, ret.
  rewrite Hmk.
  destruct (head_object c _ bucket object_key) as [n|e] eqn:Eh.
  2:{ exists [EvMkdir (path_parent P local_file) (Return tt);
              EvHeadObject bucket object_key (Raise e)], false.
      rewrite handlers_catch_all, <- app_assoc. repeat split. }
  destruct (s3_download_file c _ bucket object_key local_file) as [[]|e] eqn:Ed.
  - exists [EvMkdir (path_parent P local_file) (Return tt);
            EvHeadObject bucket object_key (Return n);
            EvDownload bucket object_key local_file (Return tt)], true.
    rewrite <- !app_assoc. repeat split.
  - exists [EvMkdir (path_parent P local_file) (Return tt);
            EvHeadObject bucket object_key (Return n);
            EvDownload bucket object_key local_file (Raise e)], false.
    rewrite handlers_catch_all, <- !app_assoc. repeat split.
Qed.

End Runs.

(** ** The batch *)

Lemma selected_objects_nil (extensions : option (list string))
      (max_files : option Z) :
  selected_objects extensions max_files [] = [].
Proof.
  unfold selected_objects, filter_by_extensions, limit_files.
  destruct (extensions_given extensions); simpl;
    destruct max_files as [m|]; try reflexivity;
    destruct (negb (m =? 0)%Z && (m <? 0)%Z); try reflexivity;
    unfold slice_to; destruct (0 <=? m)%Z; now rewrite firstn_nil.
Qed.

Section Batch.

Variable c : collaborators.
Variable P : pathlib.

Lemma attempted_keys_app (t u : history) :
  attempted_keys (t ++ u) = attempted_keys t ++ attempted_keys u.
Proof. apply flat_map_app. Qed.

Lemma failed_keys_app (t u : history) :
  failed_keys (t ++ u) = failed_keys t ++ failed_keys u.
Proof. apply flat_map_app. Qed.

Lemma completed_keys_app (t u : history) :
  completed_keys (t ++ u) = completed_keys t ++ completed_keys u.
Proof. apply flat_map_app. Qed.

Lemma eligible_markers_length (objects : list object_record) :
  List.length (eligible objects) + List.length (markers objects)
  = List.length objects.
Proof.
  induction objects as [|obj rest IH]; simpl; [reflexivity |].
  destruct (is_directory_marker (key obj)); simpl; lia.
Qed.

Lemma eligible_not_marker (objects : list object_record) (k : string) :
  In k (map key (eligible objects)) -> is_directory_marker k = false.
Proof.
  intros H. apply in_map_iff in H. destruct H as [obj [<- H]].
  apply filter_In in H. destruct H as [_ H].
  now apply negb_true_iff in H.
Qed.

(** The loop attempts every record that is not a directory marker once,
    in order, whatever the earlier attempts did, and counts each attempt
    as a download or as a failure. *)
Lemma download_loop_run (self : S3Downloader) (prefix bucket : string) :
  mkdir_succeeds c -> PyStr.truthy bucket = true ->
  forall (objects : list object_record) (d f : nat) (errs : list string)
         (h : history),
  exists t,
    download_loop c P self prefix bucket objects d f errs h
    = (Return (d + List.length (completed_keys t),
               f + List.length (failed_keys t),
               errs ++ failed_keys t), h ++ t)
    /\ attempted_keys t = map key (eligible objects)
    /\ List.length (completed_keys t) + List.length (failed_keys t)
       = List.length (eligible objects)
    /\ incl (completed_keys t) (attempted_keys t)
    /\ incl (failed_keys t) (attempted_keys t).
Proof.
  intros Hmk Hb. induction objects as [|obj rest IH]; intros d f errs h.
  - exists []. simpl. unfold ret.
    rewrite !Nat.add_0_r, !app_nil_r. repeat split; apply incl_refl.
  - simpl. destruct (is_directory_marker (key obj)) eqn:Em; simpl.
    + apply IH.
    + unfold bind.
      destruct (download_file_attempt c P self (key obj) bucket
                  (Some (path_join P (self_download_path self)
                                   (relative_path (key obj) prefix)))
                  h Hmk Hb) as [t1 [ok [E [Ha [Hf Hc]]]]].
      rewrite E.
      destruct ok.
      * destruct (IH (d + 1) f errs (h ++ t1))
          as [t2 [E2 [Ha2 [Hn2 [Ic If]]]]].
        exists (t1 ++ t2). rewrite E2.
        rewrite attempted_keys_app, failed_keys_app, completed_keys_app.
        rewrite Ha, Hf, Hc. simpl.
        rewrite <- app_assoc.
        replace (d + 1 + List.length (completed_keys t2))
          with (d + S (List.length (completed_keys t2))) by lia.
        repeat split; try (rewrite Ha2; reflexivity); try lia.
        -- apply incl_cons; [now left | now apply incl_tl].
        -- now apply incl_tl.
      * destruct (IH d (f + 1) (errs ++ [key obj]) (h ++ t1))
          as [t2 [E2 [Ha2 [Hn2 [Ic If]]]]].
        exists (t1 ++ t2). rewrite E2.
        rewrite attempted_keys_app, failed_keys_app, completed_keys_app.
        rewrite Ha, Hf, Hc. simpl.
        rewrite <- !app_assoc. simpl.
        replace (f + 1 + List.length (failed_keys t2))
          with (f + S (List.length (failed_keys t2))) by lia.
        repeat split; try (rewrite Ha2; reflexivity); try lia.
        -- now apply incl_tl.
        -- apply incl_cons; [now left | now apply incl_tl].
Qed.

(** A run of [download_directory] with a bucket, after a listing that
    returned, on a file system that creates directories. *)
Lemma download_directory_run (self : S3Downloader) (prefix bucket : string)
      (extensions : option (list string)) (bucket_name : option string)
      (max_files : option Z) (listing : list object_record)
      (h h1 : history) :
  mkdir_succeeds c ->
  truthy_str (py_or bucket_name (self_bucket_name self)) = Some bucket ->
  list_objects c self (Some bucket) prefix 1000 h = (Return listing, h1) ->
  exists t s,
    download_directory c P self prefix extensions bucket_name max_files h
    = (Return s, h1 ++ t)
    /\ attempted_keys t
       = map key (eligible (selected_objects extensions max_files listing))
    /\ errors s = failed_keys t
    /\ failed s = List.length (failed_keys t)
    /\ downloaded s = List.length (completed_keys t)
    /\ downloaded s + failed s
       = List.length (eligible (selected_objects extensions max_files listing))
    /\ success s = (failed s =? 0)%nat
    /\ total_files s
       = match listing with
         | [] => None
         | _ :: _ =>
             Some (List.length (selected_objects extensions max_files listing))
         end
    /\ incl (completed_keys t) (attempted_keys t)
    /\ incl (failed_keys t) (attempted_keys t).
Proof.
  intros Hmk Hb Hl. unfold download_directory. rewrite Hb.
  unfold bind at 1. rewrite Hl.
  destruct listing as [|obj rest].
  - exists [], (mk_stats true 0 0 [] None). unfold ret.
    rewrite app_nil_r. simpl.
    rewrite selected_objects_nil. repeat split; apply incl_refl.
  - fold (selected_objects extensions max_files (obj :: rest)).
    set (sel := selected_objects extensions max_files (obj :: rest)).
    destruct (download_loop_run self prefix bucket Hmk
                (truthy_str_Some _ _ Hb) sel 0 0 [] h1)
      as [t [E [Ha [Hn [Ic If]]]]].
    unfold bind. rewrite E. simpl.
    eexists t, _. unfold ret. split; [reflexivity |]. simpl.
    repeat split; try assumption; lia.
Qed.

End Batch.

(** ** The batch statistics *)

(** C1, as stated, fails: a listing with the directory marker and one
    file gives one download, no failure and [total_files = 2]. *)
Lemma marker_counted_in_total :
  exists s,
    returned_stats
      (download_directory
         (sample_bucket [obj_of "images/"; obj_of "images/a.png"] [])
         text_paths images_downloader "images/" None None None [])
    = Some s
    /\ s = mk_stats true 1 0 [] (Some 2)
    /\ downloaded s + failed s <> get_total_files s 0.
Proof.
  exists (mk_stats true 1 0 [] (Some 2)).
  split; [vm_compute; reflexivity | split; [reflexivity |]].
  unfold get_total_files; simpl; lia.
Qed.

(** C1, amended. After a run of [download_directory] (bucket given,
    listing and directory creation raising nothing), [total_files] is the
    number of records after filtering and truncation, directory markers
    included: [downloaded + failed + markers = total_files], hence
    [downloaded + failed <= total_files]. *)
Theorem batch_counts :
  forall (c : collaborators) (P : pathlib) (self : S3Downloader)
         (prefix bucket : string) (extensions : option (list string))
         (bucket_name : option string) (max_files : option Z)
         (listing : list object_record) (h h1 : history),
    mkdir_succeeds c ->
    truthy_str (py_or bucket_name (self_bucket_name self)) = Some bucket ->
    list_objects c self (Some bucket) prefix 1000 h = (Return listing, h1) ->
    exists s h2,
      download_directory c P self prefix extensions bucket_name max_files h
      = (Return s, h2)
      /\ downloaded s + failed s
         + List.length (markers (selected_objects extensions max_files listing))
         = get_total_files s 0
      /\ batch_invariant s.
Proof.
  intros c P self prefix bucket extensions bucket_name max_files listing
         h h1 Hmk Hb Hl.
  destruct (download_directory_run c P self prefix bucket extensions
              bucket_name max_files listing h h1 Hmk Hb Hl)
    as [t [s [E [_ [_ [_ [_ [Hn [_ [Ht _]]]]]]]]]].
  exists s, (h1 ++ t). split; [exact E |].
  assert (Hlen := eligible_markers_length
                    (selected_objects extensions max_files listing)).
  assert (Htot : get_total_files s 0
                 = List.length (selected_objects extensions max_files listing)).
  { unfold get_total_files. rewrite Ht.
    destruct listing; [| reflexivity].
    now rewrite selected_objects_nil. }
  unfold batch_invariant. rewrite Htot. lia.
Qed.

Lemma batch_counts_witness :
  exists s h2,
    download_directory (sample_bucket sample_contents ["images/b.JPG"])
                       text_paths images_downloader "images/"
                       None None None []
    = (Return s, h2)
    /\ downloaded s + failed s
       + List.length (markers (selected_objects None None sample_listing))
       = get_total_files s 0
    /\ batch_invariant s.
Proof.
  apply (batch_counts (sample_bucket sample_contents ["images/b.JPG"])
                      text_paths images_downloader "images/" "photos"
                      None None None sample_listing []
                      (listed sample_contents)).
  - intros h directory. reflexivity.
  - reflexivity.
  - reflexivity.
Defined.

(** C3, as stated, fails: a listing that holds the directory marker only
    is reported with [total_files = 1], although no record of it is a
    file. *)
Lemma marker_only_listing_total :
  exists s,
    returned_stats
      (download_directory (sample_bucket [obj_of "images/"] [])
                          text_paths images_downloader "images/"
                          None None None [])
    = Some s
    /\ s = mk_stats true 0 0 [] (Some 1)
    /\ get_total_files s 0
       <> List.length (eligible (selected_objects None None [rec_of "images/"])).
Proof.
  exists (mk_stats true 0 0 [] (Some 1)).
  split; [vm_compute; reflexivity | split; [reflexivity |]].
  unfold get_total_files; simpl; lia.
Qed.

(** C3, amended. Keys ending in the separator are never attempted (no
    metadata call, no transfer, no entry of [errors]) and are excluded
    from [downloaded] and [failed]; they are counted in [total_files],
    which is the number of records after filtering and truncation. *)
Theorem markers_skipped :
  forall (c : collaborators) (P : pathlib) (self : S3Downloader)
         (prefix bucket : string) (extensions : option (list string))
         (bucket_name : option string) (max_files : option Z)
         (listing : list object_record) (h h1 : history),
    mkdir_succeeds c ->
    truthy_str (py_or bucket_name (self_bucket_name self)) = Some bucket ->
    list_objects c self (Some bucket) prefix 1000 h = (Return listing, h1) ->
    exists s t,
      download_directory c P self prefix extensions bucket_name max_files h
      = (Return s, h1 ++ t)
      /\ Forall (fun k => is_directory_marker k = false) (attempted_keys t)
      /\ Forall (fun k => is_directory_marker k = false) (completed_keys t)
      /\ Forall (fun k => is_directory_marker k = false) (errors s)
      /\ downloaded s + failed s
         = List.length
             (eligible (selected_objects extensions max_files listing))
      /\ get_total_files s 0
         = List.length (eligible (selected_objects extensions max_files listing))
           + List.length (markers (selected_objects extensions max_files listing)).
Proof.
  intros c P self prefix bucket extensions bucket_name max_files listing
         h h1 Hmk Hb Hl.
  destruct (download_directory_run c P self prefix bucket extensions
              bucket_name max_files listing h h1 Hmk Hb Hl)
    as [t [s [E [Ha [He [_ [_ [Hn [_ [Ht [Ic If]]]]]]]]]]].
  exists s, t. split; [exact E |].
  assert (Hatt : Forall (fun k => is_directory_marker k = false)
                        (attempted_keys t)).
  { apply Forall_forall. intros k Hk. rewrite Ha in Hk.
    now apply eligible_not_marker in Hk. }
  rewrite Forall_forall in Hatt.
  repeat split.
  - now apply Forall_forall.
  - apply Forall_forall. intros k Hk. apply Hatt, Ic, Hk.
  - rewrite He. apply Forall_forall. intros k Hk. apply Hatt, If, Hk.
  - exact Hn.
  - rewrite eligible_markers_length. unfold get_total_files. rewrite Ht.
    destruct listing; [| reflexivity].
    now rewrite selected_objects_nil.
Qed.

Lemma markers_skipped_witness :
  exists s t,
    download_directory (sample_bucket sample_contents [])
                       text_paths images_downloader "images/"
                       None None None []
    = (Return s, listed sample_contents ++ t)
    /\ Forall (fun k => is_directory_marker k = false) (attempted_keys t)
    /\ Forall (fun k => is_directory_marker k = false) (completed_keys t)
    /\ Forall (fun k => is_directory_marker k = false) (errors s)
    /\ downloaded s + failed s
       = List.length (eligible (selected_objects None None sample_listing))
    /\ get_total_files s 0
       = List.length (eligible (selected_objects None None sample_listing))
         + List.length (markers (selected_objects None None sample_listing)).
Proof.
  apply (markers_skipped (sample_bucket sample_contents [])
                         text_paths images_downloader "images/" "photos"
                         None None None sample_listing []
                         (listed sample_contents)).
  - intros h directory. reflexivity.
  - reflexivity.
  - reflexivity.
Defined.

(** ** Success flag and continuation *)

(** C6, as stated, fails: a run without a bucket name returns
    [success = False] although its [failed] count is zero. *)
Lemma no_bucket_run_not_successful :
  exists s,
    returned_stats
      (download_directory (sample_bucket sample_contents [])
                          text_paths unconfigured_downloader "images/"
                          None None None [])
    = Some s
    /\ s = mk_stats false 0 0 [] None
    /\ ~ (success s = true <-> failed s = 0).
Proof.
  exists (mk_stats false 0 0 [] None).
  split; [vm_compute; reflexivity | split; [reflexivity |]].
  simpl. intros [_ H]. specialize (H eq_refl). discriminate.
Qed.

(** C6, amended. A run without a bucket name returns [success = False]
    with zero counts and makes no call.  In a run with a bucket name
    (listing and directory creation raising nothing) [success] is true
    exactly when [failed] is zero; every record of the filtered and
    truncated listing that is not a directory marker is attempted
    exactly once, in listing order, whatever the storage client answered
    to earlier attempts; [errors] lists the keys whose attempt failed,
    in order, and [failed] is their number. *)
Theorem batch_not_aborted :
  forall (c : collaborators) (P : pathlib) (self : S3Downloader)
         (prefix : string) (extensions : option (list string))
         (bucket_name : option string) (max_files : option Z) (h : history),
    mkdir_succeeds c ->
    match truthy_str (py_or bucket_name (self_bucket_name self)) with
    | None =>
        download_directory c P self prefix extensions bucket_name max_files h
        = (Return (mk_stats false 0 0 [] None), h)
    | Some bucket =>
        forall (listing : list object_record) (h1 : history),
          list_objects c self (Some bucket) prefix 1000 h
          = (Return listing, h1) ->
          exists s t,
            download_directory c P self prefix extensions bucket_name
                               max_files h
            = (Return s, h1 ++ t)
            /\ (success s = true <-> failed s = 0)
            /\ attempted_keys t
               = map key
                     (eligible (selected_objects extensions max_files listing))
            /\ errors s = failed_keys t
            /\ failed s = List.length (errors s)
            /\ downloaded s = List.length (completed_keys t)
    end.
Proof.
  intros c P self prefix extensions bucket_name max_files h Hmk.
  destruct (truthy_str (py_or bucket_name (self_bucket_name self)))
    as [bucket|] eqn:Hb.
  - intros listing h1 Hl.
    destruct (download_directory_run c P self prefix bucket extensions
                bucket_name max_files listing h h1 Hmk Hb Hl)
      as [t [s [E [Ha [He [Hf [Hd [_ [Hs _]]]]]]]]].
    exists s, t. repeat split; try assumption.
    + rewrite Hs. now intros H%Nat.eqb_eq.
    + rewrite Hs. now intros H%Nat.eqb_eq.
    + now rewrite He.
  - unfold download_directory. now rewrite Hb.
Qed.

Lemma batch_not_aborted_witness :
  exists s t,
    download_directory (sample_bucket sample_contents ["images/a.png"])
                       text_paths images_downloader "images/"
                       None None None []
    = (Return s, listed sample_contents ++ t)
    /\ (success s = true <-> failed s = 0)
    /\ attempted_keys t
       = map key (eligible (selected_objects None None sample_listing))
    /\ errors s = failed_keys t
    /\ failed s = List.length (errors s)
    /\ downloaded s = List.length (completed_keys t).
Proof.
  apply (batch_not_aborted (sample_bucket sample_contents ["images/a.png"])
                           text_paths images_downloader "images/"
                           None None None []
                           (fun _ _ => eq_refl)
                           sample_listing (listed sample_contents)).
  reflexivity.
Defined.

(** The scenario of the specification: the first file is missing, the
    batch goes on to the two remaining files. *)
Example missing_key_scenario :
  download_directory (sample_bucket sample_contents ["images/a.png"])
                     text_paths images_downloader "images/" None None None []
  = (Return (mk_stats false 2 1 ["images/a.png"] (Some 4)),
     listed sample_contents
     ++ [EvMkdir "downloads" (Return tt);
         EvHeadObject "photos" "images/a.png" (Raise (ClientError "NoSuchKey"));
         EvMkdir "downloads" (Return tt);
         EvHeadObject "photos" "images/b.JPG" (Return 1024);
         EvDownload "photos" "images/b.JPG" "downloads/b.JPG" (Return tt);
         EvMkdir "downloads/sub" (Return tt);
         EvHeadObject "photos" "images/sub/c.png" (Return 1024);
         EvDownload "photos" "images/sub/c.png" "downloads/sub/c.png"
                    (Return tt)]).
Proof. vm_compute. reflexivity. Qed.

(** ** The empty listing *)

(** C7. When the listing call of a run returns no record,
    [download_directory] returns right away, making no further call,
    with [success = True], [downloaded = 0], [failed = 0], no errors, and
    no ['total_files'] entry (read as 0 by the report). *)
Theorem empty_listing_is_success :
  forall (c : collaborators) (P : pathlib) (self : S3Downloader)
         (prefix bucket : string) (extensions : option (list string))
         (bucket_name : option string) (max_files : option Z)
         (h h1 : history),
    truthy_str (py_or bucket_name (self_bucket_name self)) = Some bucket ->
    list_objects c self (Some bucket) prefix 1000 h = (Return [], h1) ->
    exists s,
      download_directory c P self prefix extensions bucket_name max_files h
      = (Return s, h1)
      /\ success s = true
      /\ downloaded s = 0
      /\ failed s = 0
      /\ errors s = []
      /\ get_total_files s 0 = 0.
Proof.
  intros c P self prefix bucket extensions bucket_name max_files h h1 Hb Hl.
  exists (mk_stats true 0 0 [] None).
  unfold download_directory. rewrite Hb. unfold bind. rewrite Hl.
  repeat split.
Qed.

Lemma empty_listing_is_success_witness :
  exists s,
    download_directory (sample_bucket [] []) text_paths images_downloader
                       "images/" (Some [".png"]) None (Some 10%Z) []
    = (Return s, listed [])
    /\ success s = true
    /\ downloaded s = 0
    /\ failed s = 0
    /\ errors s = []
    /\ get_total_files s 0 = 0.
Proof.
  apply (empty_listing_is_success (sample_bucket [] []) text_paths
           images_downloader "images/" "photos" (Some [".png"]) None
           (Some 10%Z) [] (listed [])).
  - reflexivity.
  - reflexivity.
Defined.

(** ** The report *)

(** The divisor of the success rate is never zero, so the report is
    always produced. *)
Lemma success_rate_formula (s : stats) :
  success_rate s
  = Return (PrimFloat.mul
              (PrimFloat.div (float_of_nat (downloaded s))
                 (float_of_nat (Nat.max (get_total_files s 1) 1)))
              (float_of_nat 100)).
Proof.
  unfold success_rate, py_truediv.
  destruct (Nat.max (get_total_files s 1) 1) eqn:E; [lia | reflexivity].
Qed.

Lemma generate_download_report_returns (now : string) (self : S3Downloader)
      (s : stats) :
  exists text, generate_download_report now self s = Return text.
Proof.
  unfold generate_download_report. rewrite success_rate_formula.
  eexists; reflexivity.
Qed.

(** C8. The success percentage is
    [downloaded / max(total_files, 1) * 100]; for batch statistics whose
    [total_files] is 0 (or absent) it is formatted as ["0.0"], so the
    report reads "Success rate: 0.0%" and no division by zero occurs. *)
Theorem report_rate_without_files :
  forall (now : string) (self : S3Downloader) (s : stats),
    get_total_files s 0 = 0 ->
    batch_invariant s ->
    exists rate,
      success_rate s = Return rate
      /\ rate = PrimFloat.mul
                  (PrimFloat.div (float_of_nat (downloaded s))
                     (float_of_nat (Nat.max (get_total_files s 1) 1)))
                  (float_of_nat 100)
      /\ format_1f rate = "0.0"
      /\ generate_download_report now self s
         = Return (report_text now self s rate).
Proof.
  intros now self s Ht Hinv.
  eexists. split; [apply success_rate_formula |].
  split; [reflexivity |]. split.
  - unfold batch_invariant in Hinv. rewrite Ht in Hinv.
    assert (Hd : downloaded s = 0) by lia. rewrite Hd.
    assert (Hm : Nat.max (get_total_files s 1) 1 = 1).
    { unfold get_total_files in *. destruct (total_files s); lia. }
    rewrite Hm. vm_compute. reflexivity.
  - unfold generate_download_report. now rewrite success_rate_formula.
Qed.

Lemma report_rate_without_files_witness :
  exists rate,
    success_rate (mk_stats true 0 0 [] (Some 0)) = Return rate
    /\ rate = PrimFloat.mul
                (PrimFloat.div (float_of_nat 0)
                   (float_of_nat (Nat.max 0 1)))
                (float_of_nat 100)
    /\ format_1f rate = "0.0"
    /\ generate_download_report "2024-01-01 00:00:00" images_downloader
                                (mk_stats true 0 0 [] (Some 0))
       = Return (report_text "2024-01-01 00:00:00" images_downloader
                             (mk_stats true 0 0 [] (Some 0)) rate).
Proof.
  apply (report_rate_without_files "2024-01-01 00:00:00" images_downloader
                                   (mk_stats true 0 0 [] (Some 0))).
  - reflexivity.
  - unfold batch_invariant. simpl. lia.
Defined.

(** The report of a run whose filter left no file. *)
Example report_of_empty_batch :
  generate_download_report "2024-01-01 00:00:00" images_downloader
                           (mk_stats true 0 0 [] (Some 0))
  = Return (nl ++ "=== S3 Download Report ===" ++ nl
               ++ "Timestamp: 2024-01-01 00:00:00" ++ nl
               ++ "Bucket: photos" ++ nl
               ++ "Download Path: downloads" ++ nl
               ++ nl
               ++ "Statistics:" ++ nl
               ++ "- Total files processed: 0" ++ nl
               ++ "- Successfully downloaded: 0" ++ nl
               ++ "- Failed downloads: 0" ++ nl
               ++ "- Success rate: 0.0%" ++ nl
               ++ nl)%string.
Proof. vm_compute. reflexivity. Qed.

(** ** Remarks on the boundary of [download_file] *)

(** Directory creation precedes the [try] block: what it raises is not
    caught. *)
Remark download_file_mkdir_propagates (c : collaborators) (P : pathlib)
       (self : S3Downloader) (object_key bucket local_file : string)
       (e : exn) (h : history) :
  PyStr.truthy bucket = true ->
  PyStr.truthy local_file = true ->
  mkdir c h (path_parent P (path_of P local_file)) = Raise e ->
  fst (download_file c P self object_key (Some local_file) (Some bucket) h)
  = Raise e.
Proof.
  intros Hb Hf Hm. unfold download_file.
  rewrite (truthy_str_py_or bucket _ Hb). simpl. rewrite Hf.
  unfold bind, call_mkdir. now rewrite Hm.
Qed.

(** * Further properties *)

(** ** Truncation and filter *)

Lemma limit_files_is_prefix_aux {A : Type} (max_files : option Z)
      (L : list A) :
  exists rest, L = limit_files max_files L ++ rest.
Proof.
  destruct max_files as [m|]; unfold limit_files.
  - destruct (negb (m =? 0)%Z && (m <? Z.of_nat (List.length L))%Z).
    + unfold slice_to. destruct (0 <=? m)%Z;
        eexists; symmetry; apply firstn_skipn.
    + exists []. now rewrite app_nil_r.
  - exists []. now rewrite app_nil_r.
Qed.

(** X1. Whatever the cap (absent, zero, negative or positive), the
    truncation stage returns a prefix of the list it is given, so it
    never returns more records than it received. *)
Theorem limit_files_is_prefix :
  forall (A : Type) (max_files : option Z) (L : list A),
    (exists rest, L = limit_files max_files L ++ rest)
    /\ List.length (limit_files max_files L) <= List.length L.
Proof.
  intros A max_files L.
  destruct (limit_files_is_prefix_aux max_files L) as [rest Hr].
  split; [now exists rest |].
  rewrite Hr at 2. rewrite List.length_app. lia.
Qed.

(** X2. A negative cap is not rejected: [objects[:max_files]] then drops
    the last [-max_files] records (all of them when there are fewer). *)
Theorem limit_files_negative_cap :
  forall (A : Type) (M : Z) (L : list A),
    (M < 0)%Z ->
    limit_files (Some M) L = firstn (List.length L - Z.to_nat (- M)) L
    /\ List.length (limit_files (Some M) L)
       = List.length L - Z.to_nat (- M).
Proof.
  intros A M L HM. unfold limit_files, slice_to.
  destruct (Z.eqb_spec M 0) as [|_]; [lia |].
  destruct (Z.ltb_spec M (Z.of_nat (List.length L))) as [_|]; [| lia].
  destruct (Z.leb_spec 0 M); [lia |]. simpl.
  split; [reflexivity |]. rewrite length_firstn. lia.
Qed.

Lemma limit_files_negative_cap_witness :
  limit_files (Some (-1)%Z) sample_listing
  = firstn (List.length sample_listing - Z.to_nat (- (-1))) sample_listing
  /\ List.length (limit_files (Some (-1)%Z) sample_listing)
     = List.length sample_listing - Z.to_nat (- (-1)).
Proof.
  apply (limit_files_negative_cap object_record (-1)%Z sample_listing).
  reflexivity.
Defined.

Lemma any_extension_same_elements (k : string) (E1 E2 : list string) :
  (forall ext, In ext E1 <-> In ext E2) ->
  any_extension k E1 = any_extension k E2.
Proof.
  intros H.
  destruct (any_extension k E1) eqn:A1; destruct (any_extension k E2) eqn:A2;
    try reflexivity.
  - apply any_extension_spec in A1. destruct A1 as [ext [Hin He]].
    assert (A : any_extension k E2 = true).
    { apply any_extension_spec. exists ext. split; [now apply H | exact He]. }
    congruence.
  - apply any_extension_spec in A2. destruct A2 as [ext [Hin He]].
    assert (A : any_extension k E1 = true).
    { apply any_extension_spec. exists ext. split; [now apply H | exact He]. }
    congruence.
Qed.

(** X3. The filter stage depends on the set of extensions only: two
    allow-lists with the same elements, in any order and with any
    repetition, select the same records. *)
Theorem filter_by_extensions_same_elements :
  forall (E1 E2 : list string) (L : list object_record),
    (forall ext, In ext E1 <-> In ext E2) ->
    filter_by_extensions (Some E1) L = filter_by_extensions (Some E2) L.
Proof.
  intros E1 E2 L H. unfold filter_by_extensions.
  assert (Hg : extensions_given (Some E1) = extensions_given (Some E2)).
  { destruct E1 as [|a E1], E2 as [|b E2]; try reflexivity; exfalso.
    - apply (proj2 (H b)). now left.
    - apply (proj1 (H a)). now left. }
  rewrite Hg. destruct (extensions_given (Some E2)); [| reflexivity].
  induction L as [|obj rest IH]; simpl; [reflexivity |].
  rewrite (any_extension_same_elements (key obj) E1 E2 H).
  now rewrite IH.
Qed.

Lemma filter_by_extensions_same_elements_witness :
  filter_by_extensions (Some [".png"; ".jpg"]) sample_listing
  = filter_by_extensions (Some [".jpg"; ".png"; ".jpg"]) sample_listing.
Proof.
  apply (filter_by_extensions_same_elements
           [".png"; ".jpg"] [".jpg"; ".png"; ".jpg"] sample_listing).
  intros ext. simpl. tauto.
Defined.

(** X4. Filtering twice with the same allow-list changes nothing more. *)
Theorem filter_by_extensions_idempotent :
  forall (E : option (list string)) (L : list object_record),
    filter_by_extensions E (filter_by_extensions E L)
    = filter_by_extensions E L.
Proof.
  intros E L. unfold filter_by_extensions.
  destruct (extensions_given E); [| reflexivity].
  induction L as [|obj rest IH]; simpl; [reflexivity |].
  destruct (any_extension (key obj) _) eqn:A; [| exact IH].
  simpl. rewrite A. now rewrite IH.
Qed.

Lemma subsequence_trans {A : Type} (a b d : list A) :
  subsequence a b -> subsequence b d -> subsequence a d.
Proof.
  intros Hab Hbd. revert a Hab.
  induction Hbd as [|x s l _ IH|x s l _ IH]; intros a Hab.
  - exact Hab.
  - inversion Hab; subst.
    + apply subseq_take. now apply IH.
    + apply subseq_skip. now apply IH.
  - apply subseq_skip. now apply IH.
Qed.

Lemma subsequence_nil_l {A : Type} (l : list A) : subsequence [] l.
Proof. induction l; constructor; assumption. Qed.

Lemma subsequence_app_prefix {A : Type} (l rest : list A) :
  subsequence l (l ++ rest).
Proof.
  induction l as [|x l IH]; simpl;
    [apply subsequence_nil_l | now apply subseq_take].
Qed.

Lemma subsequence_map {A B : Type} (f : A -> B) (s l : list A) :
  subsequence s l -> subsequence (map f s) (map f l).
Proof. induction 1; simpl; constructor; assumption. Qed.

Lemma subsequence_filter {A : Type} (f : A -> bool) (l : list A) :
  subsequence (filter f l) l.
Proof.
  induction l as [|x l IH]; simpl; [constructor |].
  destruct (f x); constructor; assumption.
Qed.

Lemma subsequence_length {A : Type} (s l : list A) :
  subsequence s l -> List.length s <= List.length l.
Proof. induction 1; simpl; lia. Qed.

(** The records the loop iterates over are records of the listing, in
    listing order. *)
Lemma selected_objects_subsequence (extensions : option (list string))
      (max_files : option Z) (listing : list object_record) :
  subsequence (selected_objects extensions max_files listing) listing.
Proof.
  unfold selected_objects.
  apply subsequence_trans with (filter_by_extensions extensions listing).
  - destruct (limit_files_is_prefix_aux max_files
                (filter_by_extensions extensions listing)) as [rest Hr].
    rewrite Hr at 2. apply subsequence_app_prefix.
  - destruct extensions as [[|e es]|]; try apply subsequence_refl.
    eapply keeps_exactly_subsequence, extension_comprehension_keeps.
Qed.

(** ** Path mapping *)

Lemma slice_from_suffix (n : nat) (s : string) :
  exists front, s = (front ++ PyStr.slice_from n s)%string
                /\ String.length (PyStr.slice_from n s) = String.length s - n.
Proof.
  revert s; induction n as [|n IH]; intros s.
  - exists ""%string. split; [reflexivity | simpl; lia].
  - destruct s as [|x s]; simpl.
    + exists ""%string. now split.
    + destruct (IH s) as [front [Hs Hl]].
      exists (String x front). simpl. split; [now rewrite <- Hs | exact Hl].
Qed.

Lemma lstrip_suffix (ch : ascii) (s : string) :
  exists front, s = (front ++ PyStr.lstrip ch s)%string
                /\ String.length (PyStr.lstrip ch s) <= String.length s.
Proof.
  induction s as [|x s [front [Hs Hl]]]; simpl.
  - exists ""%string. now split.
  - destruct (Ascii.eqb x ch).
    + exists (String x front). simpl. split; [now rewrite <- Hs | lia].
    + exists ""%string. simpl. split; [reflexivity | lia].
Qed.

(** X5. The relative path is always a suffix of the object key, at most
    [len(key) - len(prefix)] characters long: the mapping only drops
    characters from the left (it is empty when the prefix is at least as
    long as the key). *)
Theorem relative_path_is_suffix :
  forall object_key prefix : string,
    (exists front,
        object_key = (front ++ relative_path object_key prefix)%string)
    /\ String.length (relative_path object_key prefix)
       <= String.length object_key - String.length prefix.
Proof.
  intros object_key prefix. unfold relative_path.
  destruct (slice_from_suffix (String.length prefix) object_key)
    as [f1 [H1 L1]].
  destruct (lstrip_suffix sep (PyStr.slice_from (String.length prefix) object_key))
    as [f2 [H2 L2]].
  split; [| lia].
  exists (f1 ++ f2)%string.
  rewrite H1 at 1. rewrite H2 at 1.
  clear. induction f1 as [|x f1 IH]; simpl; [reflexivity | now rewrite IH].
Qed.

(** ** Listing *)

Lemma collect_objects_keys (pages : list page) :
  map key (collect_objects pages)
  = flat_map (fun p => map Key (get_default p [])) pages
  /\ List.length (collect_objects pages)
     = list_sum (map (fun p => List.length (get_default p [])) pages).
Proof.
  induction pages as [|[contents|] rest [IHk IHl]]; simpl.
  - now split.
  - rewrite map_app, map_map, List.length_app, length_map. simpl.
    rewrite IHk, IHl. now split.
  - now split.
Qed.

(** X6. [list_objects] never raises a [ClientError]: it returns a list,
    or lets an exception of another class pass. *)
Theorem list_objects_no_client_error :
  forall (c : collaborators) (self : S3Downloader)
         (bucket_name : option string) (prefix : string) (max_keys : nat)
         (h : history),
    (exists objects,
        fst (list_objects c self bucket_name prefix max_keys h)
        = Return objects)
    \/ (exists name,
           fst (list_objects c self bucket_name prefix max_keys h)
           = Raise (OtherException name)).
Proof.
  intros c self bucket_name prefix max_keys h. unfold list_objects.
  destruct (truthy_str (py_or bucket_name (self_bucket_name self)))
    as [bucket|]; [| left; now exists []].
  unfold try_except, bind, call_paginate, ret.
  destruct (paginate c h bucket prefix max_keys) as [pages|[code|name]]; simpl.
  - left. now eexists.
  - left. now exists [].
  - right. now exists name.
Qed.

(** X7. When the paginator delivers its pages, [list_objects] returns
    the objects of all pages in page order, one record per object; pages
    without ['Contents'] add nothing, and the list is not cut to
    [max_keys] by [list_objects] itself. *)
Theorem list_objects_all_pages :
  forall (c : collaborators) (self : S3Downloader)
         (bucket_name : option string) (prefix bucket : string)
         (max_keys : nat) (pages : list page) (h : history),
    truthy_str (py_or bucket_name (self_bucket_name self)) = Some bucket ->
    paginate c h bucket prefix max_keys = Return pages ->
    exists objects,
      list_objects c self bucket_name prefix max_keys h
      = (Return objects,
         h ++ [EvPaginate bucket prefix max_keys (Return pages)])
      /\ map key objects = flat_map (fun p => map Key (get_default p [])) pages
      /\ List.length objects
         = list_sum (map (fun p => List.length (get_default p [])) pages).
Proof.
  intros c self bucket_name prefix bucket max_keys pages h Hb Hp.
  exists (collect_objects pages).
  unfold list_objects. rewrite Hb.
  unfold try_except, bind, call_paginate, ret. rewrite Hp.
  split; [reflexivity | apply collect_objects_keys].
Qed.

Lemma list_objects_all_pages_witness :
  exists objects,
    list_objects
      {| paginate := fun _ _ _ _ =>
                       Return [Some [obj_of "images/a.png"]; None;
                               Some [obj_of "images/b.JPG";
                                     obj_of "images/sub/c.png"]];
         mkdir := fun _ _ => Return tt;
         head_object := fun _ _ _ => Return 1024;
         s3_download_file := fun _ _ _ _ => Return tt |}
      images_downloader None "images/" 2 []
    = (Return objects,
       [] ++ [EvPaginate "photos" "images/" 2
                (Return [Some [obj_of "images/a.png"]; None;
                         Some [obj_of "images/b.JPG";
                               obj_of "images/sub/c.png"]])])
    /\ map key objects
       = flat_map (fun p => map Key (get_default p []))
                  [Some [obj_of "images/a.png"]; None;
                   Some [obj_of "images/b.JPG"; obj_of "images/sub/c.png"]]
    /\ List.length objects
       = list_sum (map (fun p => List.length (get_default p []))
                       [Some [obj_of "images/a.png"]; None;
                        Some [obj_of "images/b.JPG";
                              obj_of "images/sub/c.png"]]).
Proof.
  apply (list_objects_all_pages _ images_downloader None "images/" "photos" 2).
  - reflexivity.
  - reflexivity.
Defined.

(** ** One download, again *)

(** X8. The file [download_file] transfers to, and the directory it
    creates, depend on the key through its last component only when no
    local path is given: the target is [download_path / Path(key).name],
    or the given local path, and the directory is the parent of the
    target. *)
Theorem download_file_target :
  forall (c : collaborators) (P : pathlib) (self : S3Downloader)
         (object_key : string) (local_path bucket_name : option string)
         (h : history),
  exists t r,
    download_file c P self object_key local_path bucket_name h = (r, h ++ t)
    /\ Forall (eq (match truthy_str local_path with
                   | Some p => path_of P p
                   | None => path_join P (self_download_path self)
                                       (path_name P object_key)
                   end)) (transfer_targets t)
    /\ Forall (eq (path_parent P
                     (match truthy_str local_path with
                      | Some p => path_of P p
                      | None => path_join P (self_download_path self)
                                          (path_name P object_key)
                      end))) (created_directories t).
Proof.
  intros c P self object_key local_path bucket_name h.
  unfold download_file.
  destruct (truthy_str (py_or bucket_name (self_bucket_name self))) as [bucket|].
  2:{ exists [], (Return false). rewrite app_nil_r. repeat split; constructor. }
  set (local_file := match truthy_str local_path with
                     | Some p => path_of P p
                     | None => path_join P (self_download_path self)
                                         (path_name P object_key)
                     end).
  unfold bind, try_except, call_mkdir, call_head_object, call_download, ret.
  destruct (mkdir c h (path_parent P local_file)) as [[]|e].
  2:{ eexists [_], _. split; [reflexivity |].
      split; simpl; repeat constructor. }
  destruct (head_object c _ bucket object_key) as [n|e].
  2:{ rewrite handlers_catch_all, <- app_assoc.
      eexists _, _. split; [reflexivity |].
      split; simpl; repeat constructor. }
  destruct (s3_download_file c _ bucket object_key local_file) as [[]|e].
  - rewrite <- !app_assoc. eexists _, _. split; [reflexivity |].
    split; simpl; repeat constructor.
  - rewrite handlers_catch_all, <- !app_assoc.
    eexists _, _. split; [reflexivity |].
    split; simpl; repeat constructor.
Qed.

(** ** The batch, again *)

Section BatchFacts.

Variable c : collaborators.
Variable P : pathlib.

Lemma list_objects_with_bucket (self : S3Downloader) (bucket prefix : string)
      (max_keys : nat) (h : history) :
  PyStr.truthy bucket = true ->
  list_objects c self (Some bucket) prefix max_keys h
  = match paginate c h bucket prefix max_keys with
    | Return pages =>
        (Return (collect_objects pages),
         h ++ [EvPaginate bucket prefix max_keys (Return pages)])
    | Raise (ClientError code) =>
        (Return [],
         h ++ [EvPaginate bucket prefix max_keys (Raise (ClientError code))])
    | Raise (OtherException name) =>
        (Raise (OtherException name),
         h ++ [EvPaginate bucket prefix max_keys
                          (Raise (OtherException name))])
    end.
Proof.
  intros Hb. unfold list_objects. rewrite (truthy_str_py_or bucket _ Hb).
  unfold try_except, bind, call_paginate, ret.
  destruct (paginate c h bucket prefix max_keys) as [pages|[code|name]];
    reflexivity.
Qed.

Lemma download_file_run_no_listing (object_key : string) (t : history)
      (r : outcome bool) :
  download_file_run object_key t r -> listing_calls t = [].
Proof. destruct 1; reflexivity. Qed.

(** The loop never lists, however it ends. *)
Lemma download_loop_no_listing (self : S3Downloader) (prefix bucket : string)
      (objects : list object_record) :
  forall (d f : nat) (errs : list string) (h : history),
  exists t r,
    download_loop c P self prefix bucket objects d f errs h = (r, h ++ t)
    /\ listing_calls t = [].
Proof.
  induction objects as [|obj rest IH]; intros d f errs h; simpl.
  - exists [], (Return (d, f, errs)). unfold ret. now rewrite app_nil_r.
  - destruct (is_directory_marker (key obj)); [apply IH |].
    unfold bind.
    destruct (download_file_cases c P self (key obj)
                (Some (path_join P (self_download_path self)
                                 (relative_path (key obj) prefix)))
                (Some bucket) h) as [t1 [r1 [E1 R1]]].
    rewrite E1. apply download_file_run_no_listing in R1.
    destruct r1 as [[|]|e].
    + destruct (IH (d + 1) f errs (h ++ t1)) as [t2 [r2 [E2 L2]]].
      exists (t1 ++ t2), r2. rewrite E2, app_assoc. split; [reflexivity |].
      unfold listing_calls in *. now rewrite filter_app, R1, L2.
    + destruct (IH d (f + 1) (errs ++ [key obj]) (h ++ t1))
        as [t2 [r2 [E2 L2]]].
      exists (t1 ++ t2), r2. rewrite E2, app_assoc. split; [reflexivity |].
      unfold listing_calls in *. now rewrite filter_app, R1, L2.
    + exists t1, (Raise e). now split.
Qed.

(** X9. Every run of [download_directory] with a bucket lists exactly
    once, first of all, and always with [MaxItems = 1000], whatever
    [max_files] is and however the run ends. *)
Theorem download_directory_lists_once :
  forall (self : S3Downloader) (prefix bucket : string)
         (extensions : option (list string)) (bucket_name : option string)
         (max_files : option Z) (h : history),
    truthy_str (py_or bucket_name (self_bucket_name self)) = Some bucket ->
    exists answer t r,
      download_directory c P self prefix extensions bucket_name max_files h
      = (r, h ++ EvPaginate bucket prefix 1000 answer :: t)
      /\ listing_calls t = [].
Proof.
  intros self prefix bucket extensions bucket_name max_files h Hb.
  unfold download_directory. rewrite Hb. unfold bind at 1.
  rewrite (list_objects_with_bucket self bucket prefix 1000 h
             (truthy_str_Some _ _ Hb)).
  destruct (paginate c h bucket prefix 1000) as [pages|[code|name]].
  - destruct (collect_objects pages) as [|obj rest] eqn:Ec.
    + exists (Return pages), [], (Return (mk_stats true 0 0 [] None)).
      now split.
    + set (sel := limit_files max_files
                    (filter_by_extensions extensions (obj :: rest))).
      destruct (download_loop_no_listing self prefix bucket sel 0 0 []
                  (h ++ [EvPaginate bucket prefix 1000 (Return pages)]))
        as [t [r [E L]]].
      unfold bind. rewrite E. rewrite <- app_assoc. simpl.
      destruct r as [[[d f] errs]|e]; eexists _, t, _; split;
        try reflexivity; exact L.
  - eexists _, [], _. split; reflexivity.
  - eexists _, [], _. split; reflexivity.
Qed.

(** X10. A listing that fails with a [ClientError] (access denied, no
    such bucket, ...) is reported like an empty one: [download_directory]
    returns [success = True] with zero counts and attempts nothing. *)
Theorem listing_client_error_reported_as_success :
  forall (self : S3Downloader) (prefix bucket code : string)
         (extensions : option (list string)) (bucket_name : option string)
         (max_files : option Z) (h : history),
    truthy_str (py_or bucket_name (self_bucket_name self)) = Some bucket ->
    paginate c h bucket prefix 1000 = Raise (ClientError code) ->
    download_directory c P self prefix extensions bucket_name max_files h
    = (Return (mk_stats true 0 0 [] None),
       h ++ [EvPaginate bucket prefix 1000 (Raise (ClientError code))]).
Proof.
  intros self prefix bucket code extensions bucket_name max_files h Hb Hp.
  unfold download_directory. rewrite Hb. unfold bind.
  rewrite (list_objects_with_bucket self bucket prefix 1000 h
             (truthy_str_Some _ _ Hb)), Hp.
  reflexivity.
Qed.

(** X11. An exception of the listing that is not a [ClientError] is not
    caught: [download_directory] raises it, and returns no statistics. *)
Theorem listing_exception_propagates :
  forall (self : S3Downloader) (prefix bucket name : string)
         (extensions : option (list string)) (bucket_name : option string)
         (max_files : option Z) (h : history),
    truthy_str (py_or bucket_name (self_bucket_name self)) = Some bucket ->
    paginate c h bucket prefix 1000 = Raise (OtherException name) ->
    download_directory c P self prefix extensions bucket_name max_files h
    = (Raise (OtherException name),
       h ++ [EvPaginate bucket prefix 1000 (Raise (OtherException name))]).
Proof.
  intros self prefix bucket name extensions bucket_name max_files h Hb Hp.
  unfold download_directory. rewrite Hb. unfold bind.
  rewrite (list_objects_with_bucket self bucket prefix 1000 h
             (truthy_str_Some _ _ Hb)), Hp.
  reflexivity.
Qed.

(** With a file system that refuses to create directories the loop stops
    at its first record that is not a directory marker. *)
Lemma download_loop_mkdir_fails (self : S3Downloader) (prefix bucket : string)
      (e : exn) :
  (forall h d, mkdir c h d = Raise e) -> PyStr.truthy bucket = true ->
  forall (objects : list object_record) (first : object_record)
         (others : list object_record) (d f : nat) (errs : list string)
         (h : history),
    eligible objects = first :: others ->
    exists directory,
      download_loop c P self prefix bucket objects d f errs h
      = (Raise e, h ++ [EvMkdir directory (Raise e)]).
Proof.
  intros Hmk Hb. induction objects as [|obj rest IH];
    intros first others d f errs h He; simpl in *; [discriminate |].
  destruct (is_directory_marker (key obj)); simpl in He.
  - now apply (IH first others).
  - unfold bind, download_file.
    rewrite (truthy_str_py_or bucket _ Hb).
    unfold bind, call_mkdir. rewrite Hmk. eexists. reflexivity.
Qed.

(** X12. A failure of directory creation is not counted as a failed
    download: when the file system refuses to create directories and the
    batch holds a file, [download_directory] raises after its first
    [mkdir], before any call to the storage client, and returns no
    statistics. *)
Theorem mkdir_failure_aborts_batch :
  forall (self : S3Downloader) (prefix bucket : string)
         (extensions : option (list string)) (bucket_name : option string)
         (max_files : option Z) (listing : list object_record)
         (first : object_record) (others : list object_record)
         (e : exn) (h h1 : history),
    (forall h d, mkdir c h d = Raise e) ->
    truthy_str (py_or bucket_name (self_bucket_name self)) = Some bucket ->
    list_objects c self (Some bucket) prefix 1000 h = (Return listing, h1) ->
    eligible (selected_objects extensions max_files listing)
    = first :: others ->
    exists directory,
      download_directory c P self prefix extensions bucket_name max_files h
      = (Raise e, h1 ++ [EvMkdir directory (Raise e)]).
Proof.
  intros self prefix bucket extensions bucket_name max_files listing
         first others e h h1 Hmk Hb Hl He.
  unfold download_directory. rewrite Hb. unfold bind at 1. rewrite Hl.
  destruct listing as [|obj rest].
  - rewrite selected_objects_nil in He. discriminate.
  - fold (selected_objects extensions max_files (obj :: rest)).
    destruct (download_loop_mkdir_fails self prefix bucket e Hmk
                (truthy_str_Some _ _ Hb) _ first others 0 0 [] h1 He)
      as [directory E].
    exists directory. unfold bind. now rewrite E.
Qed.

(** The failed keys of a loop run are among the attempted ones, in the
    order of the attempts. *)
Lemma download_loop_order (self : S3Downloader) (prefix bucket : string) :
  mkdir_succeeds c -> PyStr.truthy bucket = true ->
  forall (objects : list object_record) (d f : nat) (errs : list string)
         (h : history),
  exists t r,
    download_loop c P self prefix bucket objects d f errs h = (r, h ++ t)
    /\ subsequence (failed_keys t) (attempted_keys t)
    /\ subsequence (completed_keys t) (attempted_keys t).
Proof.
  intros Hmk Hb. induction objects as [|obj rest IH]; intros d f errs h; simpl.
  - exists [], (Return (d, f, errs)). unfold ret. rewrite app_nil_r.
    repeat split; constructor.
  - destruct (is_directory_marker (key obj)); [apply IH |].
    unfold bind.
    destruct (download_file_attempt c P self (key obj) bucket
                (Some (path_join P (self_download_path self)
                                 (relative_path (key obj) prefix)))
                h Hmk Hb) as [t1 [ok [E [Ha [Hf Hc]]]]].
    rewrite E. destruct ok.
    + destruct (IH (d + 1) f errs (h ++ t1)) as [t2 [r [E2 [S1 S2]]]].
      exists (t1 ++ t2), r. rewrite E2, app_assoc.
      rewrite attempted_keys_app, failed_keys_app, completed_keys_app.
      rewrite Ha, Hf, Hc. simpl. repeat split.
      * now apply subseq_skip.
      * now apply subseq_take.
    + destruct (IH d (f + 1) (errs ++ [key obj]) (h ++ t1))
        as [t2 [r [E2 [S1 S2]]]].
      exists (t1 ++ t2), r. rewrite E2, app_assoc.
      rewrite attempted_keys_app, failed_keys_app, completed_keys_app.
      rewrite Ha, Hf, Hc. simpl. repeat split.
      * now apply subseq_take.
      * now apply subseq_skip.
Qed.

(** X13. [download_directory] attempts listed keys only, in listing
    order, and [errors] names the failed keys in the order of the
    attempts: no key is invented, repeated or moved. *)
Theorem attempts_follow_listing_order :
  forall (self : S3Downloader) (prefix bucket : string)
         (extensions : option (list string)) (bucket_name : option string)
         (max_files : option Z) (listing : list object_record)
         (h h1 : history),
    mkdir_succeeds c ->
    truthy_str (py_or bucket_name (self_bucket_name self)) = Some bucket ->
    list_objects c self (Some bucket) prefix 1000 h = (Return listing, h1) ->
    exists s t,
      download_directory c P self prefix extensions bucket_name max_files h
      = (Return s, h1 ++ t)
      /\ subsequence (attempted_keys t) (map key listing)
      /\ subsequence (errors s) (attempted_keys t)
      /\ List.length (attempted_keys t) <= List.length listing.
Proof.
  intros self prefix bucket extensions bucket_name max_files listing
         h h1 Hmk Hb Hl.
  destruct (download_directory_run c P self prefix bucket extensions
              bucket_name max_files listing h h1 Hmk Hb Hl)
    as [t [s [E [Ha [He _]]]]].
  exists s, t. split; [exact E |].
  assert (Hsub : subsequence (attempted_keys t) (map key listing)).
  { rewrite Ha. apply subsequence_map.
    eapply subsequence_trans;
      [apply subsequence_filter | apply selected_objects_subsequence]. }
  split; [exact Hsub |]. split.
  - rewrite He.
    unfold download_directory in E. rewrite Hb in E.
    unfold bind at 1 in E. rewrite Hl in E.
    destruct listing as [|obj rest].
    + unfold ret in E. injection E as _ E.
      rewrite <- (app_nil_r h1) in E at 1. apply app_inv_head in E.
      subst t. constructor.
    + destruct (download_loop_order self prefix bucket Hmk
                  (truthy_str_Some _ _ Hb)
                  (limit_files max_files
                     (filter_by_extensions extensions (obj :: rest)))
                  0 0 [] h1) as [t' [r [E' [S1 _]]]].
      unfold bind in E. rewrite E' in E.
      destruct r as [[[d f] errs]|e]; [| discriminate].
      unfold ret in E. injection E as _ E. apply app_inv_head in E.
      now subst t'.
  - apply subsequence_length in Hsub. now rewrite length_map in Hsub.
Qed.

(** X14. [success] means that every file of the batch was downloaded:
    it is true exactly when [errors] is empty, and exactly when
    [downloaded] is the number of selected records that are not
    directory markers. *)
Theorem success_means_all_downloaded :
  forall (self : S3Downloader) (prefix bucket : string)
         (extensions : option (list string)) (bucket_name : option string)
         (max_files : option Z) (listing : list object_record)
         (h h1 : history),
    mkdir_succeeds c ->
    truthy_str (py_or bucket_name (self_bucket_name self)) = Some bucket ->
    list_objects c self (Some bucket) prefix 1000 h = (Return listing, h1) ->
    exists s h2,
      download_directory c P self prefix extensions bucket_name max_files h
      = (Return s, h2)
      /\ (success s = true <-> errors s = [])
      /\ (success s = true
          <-> downloaded s
              = List.length
                  (eligible (selected_objects extensions max_files listing))).
Proof.
  intros self prefix bucket extensions bucket_name max_files listing
         h h1 Hmk Hb Hl.
  destruct (download_directory_run c P self prefix bucket extensions
              bucket_name max_files listing h h1 Hmk Hb Hl)
    as [t [s [E [_ [He [Hf [_ [Hn [Hs _]]]]]]]]].
  exists s, (h1 ++ t). split; [exact E |].
  rewrite Hs, Nat.eqb_eq. split.
  - rewrite He, Hf. destruct (failed_keys t); simpl; split;
      intros; try reflexivity; discriminate.
  - lia.
Qed.

End BatchFacts.

Lemma download_directory_lists_once_witness :
  exists answer t r,
    download_directory (sample_bucket sample_contents []) text_paths
                       images_downloader "images/" None None
                       (Some 5000%Z) []
    = (r, [] ++ EvPaginate "photos" "images/" 1000 answer :: t)
    /\ listing_calls t = [].
Proof.
  apply (download_directory_lists_once (sample_bucket sample_contents [])
           text_paths images_downloader "images/" "photos" None None
           (Some 5000%Z) []).
  reflexivity.
Defined.

Lemma listing_client_error_reported_as_success_witness :
  download_directory denied_bucket text_paths images_downloader "images/"
                     None None None []
  = (Return (mk_stats true 0 0 [] None),
     [] ++ [EvPaginate "photos" "images/" 1000
                       (Raise (ClientError "AccessDenied"))]).
Proof.
  apply (listing_client_error_reported_as_success denied_bucket text_paths
           images_downloader "images/" "photos" "AccessDenied"
           None None None []).
  - reflexivity.
  - reflexivity.
Defined.

Lemma listing_exception_propagates_witness :
  download_directory offline_bucket text_paths images_downloader "images/"
                     None None None []
  = (Raise (OtherException "EndpointConnectionError"),
     [] ++ [EvPaginate "photos" "images/" 1000
                       (Raise (OtherException "EndpointConnectionError"))]).
Proof.
  apply (listing_exception_propagates offline_bucket text_paths
           images_downloader "images/" "photos" "EndpointConnectionError"
           None None None []).
  - reflexivity.
  - reflexivity.
Defined.

Lemma mkdir_failure_aborts_batch_witness :
  exists directory,
    download_directory (readonly_target sample_contents) text_paths
                       images_downloader "images/" None None None []
    = (Raise (OtherException "PermissionError"),
       listed sample_contents
       ++ [EvMkdir directory (Raise (OtherException "PermissionError"))]).
Proof.
  apply (mkdir_failure_aborts_batch (readonly_target sample_contents)
           text_paths images_downloader "images/" "photos" None None None
           sample_listing (rec_of "images/a.png")
           [rec_of "images/b.JPG"; rec_of "images/sub/c.png"]
           (OtherException "PermissionError") [] (listed sample_contents)).
  - intros h d. reflexivity.
  - reflexivity.
  - reflexivity.
  - reflexivity.
Defined.

Lemma attempts_follow_listing_order_witness :
  exists s t,
    download_directory (sample_bucket sample_contents ["images/b.JPG"])
                       text_paths images_downloader "images/"
                       (Some [".png"; ".jpg"]) None (Some 2%Z) []
    = (Return s, listed sample_contents ++ t)
    /\ subsequence (attempted_keys t) (map key sample_listing)
    /\ subsequence (errors s) (attempted_keys t)
    /\ List.length (attempted_keys t) <= List.length sample_listing.
Proof.
  apply (attempts_follow_listing_order
           (sample_bucket sample_contents ["images/b.JPG"]) text_paths
           images_downloader "images/" "photos" (Some [".png"; ".jpg"])
           None (Some 2%Z) sample_listing [] (listed sample_contents)).
  - intros h d. reflexivity.
  - reflexivity.
  - reflexivity.
Defined.

Lemma success_means_all_downloaded_witness :
  exists s h2,
    download_directory (sample_bucket sample_contents ["images/b.JPG"])
                       text_paths images_downloader "images/"
                       None None None []
    = (Return s, h2)
    /\ (success s = true <-> errors s = [])
    /\ (success s = true
        <-> downloaded s
            = List.length
                (eligible (selected_objects None None sample_listing))).
Proof.
  apply (success_means_all_downloaded
           (sample_bucket sample_contents ["images/b.JPG"]) text_paths
           images_downloader "images/" "photos" None None None
           sample_listing [] (listed sample_contents)).
  - intros h d. reflexivity.
  - reflexivity.
  - reflexivity.
Defined.

(** ** The report, again *)

(** X15. For every statistics dictionary the report is produced: the
    divisor of the success rate is at least 1, so no division by zero
    can occur, whatever the counts are. *)
Theorem report_always_produced :
  forall (now : string) (self : S3Downloader) (s : stats),
  exists rate,
    success_rate s = Return rate
    /\ generate_download_report now self s
       = Return (report_text now self s rate).
Proof.
  intros now self s. eexists. split; [apply success_rate_formula |].
  unfold generate_download_report. now rewrite success_rate_formula.
Qed.

Lemma rate_text_full (n : nat) :
  1 <= n <= 1000 -> rate_text n n = "100.0"%string.
Proof.
  intros Hn.
  assert (Hall : forallb (fun k => String.eqb (rate_text k k) "100.0")
                         (seq 1 1000) = true) by (vm_compute; reflexivity).
  rewrite forallb_forall in Hall.
  apply String.eqb_eq, Hall, in_seq. lia.
Qed.

(** X16. A batch of up to 1000 files (the listing limit) that were all
    downloaded is reported with "Success rate: 100.0%". *)
Theorem full_success_prints_100 :
  forall (now : string) (self : S3Downloader) (s : stats) (n : nat),
    1 <= n <= 1000 ->
    downloaded s = n ->
    total_files s = Some n ->
    exists rate,
      generate_download_report now self s
      = Return (report_text now self s rate)
      /\ format_1f rate = "100.0"%string.
Proof.
  intros now self s n Hn Hd Ht.
  eexists. split.
  - unfold generate_download_report. now rewrite success_rate_formula.
  - assert (H := rate_text_full n Hn).
    unfold rate_text in H. rewrite success_rate_formula in H.
    unfold get_total_files in *. simpl in H. now rewrite Hd, Ht.
Qed.

Lemma full_success_prints_100_witness :
  exists rate,
    generate_download_report "2024-01-01 00:00:00" images_downloader
                             (mk_stats true 3 0 [] (Some 3))
    = Return (report_text "2024-01-01 00:00:00" images_downloader
                          (mk_stats true 3 0 [] (Some 3)) rate)
    /\ format_1f rate = "100.0"%string.
Proof.
  apply (full_success_prints_100 "2024-01-01 00:00:00" images_downloader
           (mk_stats true 3 0 [] (Some 3)) 3).
  - lia.
  - reflexivity.
  - reflexivity.
Defined.

(** ** Object metadata *)

(** X17. [get_file_info] returns [None] in exactly two cases: no bucket
    is known, or the metadata call raised a [ClientError]; any other
    exception is not caught. *)
Theorem get_file_info_none_iff :
  forall (head : string -> string -> outcome head_response)
         (self : S3Downloader) (object_key : string)
         (bucket_name : option string),
    get_file_info head self object_key bucket_name = Return None
    <-> (truthy_str (py_or bucket_name (self_bucket_name self)) = None
         \/ exists bucket code,
             truthy_str (py_or bucket_name (self_bucket_name self))
             = Some bucket
             /\ head bucket object_key = Raise (ClientError code)).
Proof.
  intros head self object_key bucket_name. unfold get_file_info.
  destruct (truthy_str (py_or bucket_name (self_bucket_name self)))
    as [bucket|].
  - destruct (head bucket object_key) as [response|[code|name]] eqn:Eh; simpl.
    + split; [discriminate |].
      intros [H | [b [code [[= <-] H]]]]; [discriminate | congruence].
    + split; [| reflexivity]. intros _. right. now exists bucket, code.
    + split; [discriminate |].
      intros [H | [b [code [[= <-] H]]]]; [discriminate | congruence].
  - split; [now left | reflexivity].
Qed.

(** X18. When the metadata call answers, [get_file_info] echoes the key
    it was asked for, copies size, date and tag, and fills an absent
    content type with ["unknown"] and absent metadata with the empty
    dictionary. *)
Theorem get_file_info_answer :
  forall (head : string -> string -> outcome head_response)
         (self : S3Downloader) (object_key bucket : string)
         (bucket_name : option string) (response : head_response),
    truthy_str (py_or bucket_name (self_bucket_name self)) = Some bucket ->
    head bucket object_key = Return response ->
    exists info,
      get_file_info head self object_key bucket_name = Return (Some info)
      /\ info_key info = object_key
      /\ info_size info = ContentLength response
      /\ (ContentType response = None -> info_content_type info = "unknown"%string)
      /\ (Metadata response = None -> info_metadata info = [])
      /\ (forall ct, ContentType response = Some ct -> info_content_type info = ct).
Proof.
  intros head self object_key bucket bucket_name response Hb Hh.
  unfold get_file_info. rewrite Hb, Hh. eexists. split; [reflexivity |].
  simpl. repeat split.
  - now intros ->.
  - now intros ->.
  - now intros ct ->.
Qed.

Lemma get_file_info_answer_witness :
  exists info,
    get_file_info
      (fun _ _ => Return (mk_head_response 7 "2024-01-01" "tag" None None))
      images_downloader "images/a.png" None
    = Return (Some info)
    /\ info_key info = "images/a.png"%string
    /\ info_size info
       = ContentLength (mk_head_response 7 "2024-01-01" "tag" None None)
    /\ (ContentType (mk_head_response 7 "2024-01-01" "tag" None None) = None
        -> info_content_type info = "unknown"%string)
    /\ (Metadata (mk_head_response 7 "2024-01-01" "tag" None None) = None
        -> info_metadata info = [])
    /\ (forall ct,
           ContentType (mk_head_response 7 "2024-01-01" "tag" None None)
           = Some ct -> info_content_type info = ct).
Proof.
  apply (get_file_info_answer
           (fun _ _ => Return (mk_head_response 7 "2024-01-01" "tag" None None))
           images_downloader "images/a.png" "photos" None
           (mk_head_response 7 "2024-01-01" "tag" None None)).
  - reflexivity.
  - reflexivity.
Defined.

(** ** The example script *)

(** X19. After a batch over an empty listing the summary of Example 5
    fails: the statistics have no ['total_files'] entry, so the script
    prints three lines and raises [KeyError] at the success rate. *)
Theorem example5_empty_listing_key_error :
  forall (c : collaborators) (P : pathlib) (downloader : S3Downloader)
         (bucket : string) (h h1 : history),
    truthy_str (py_or None (self_bucket_name downloader)) = Some bucket ->
    list_objects c downloader (Some bucket) "images/" 1000 h
    = (Return [], h1) ->
    example5 c P downloader h
    = ((["Download complete:"; "  - Downloaded: 0"; "  - Failed: 0"]%string,
        Raise (OtherException "KeyError")), h1).
Proof.
  intros c P downloader bucket h h1 Hb Hl.
  unfold example5, download_directory. rewrite Hb. unfold bind. rewrite Hl.
  reflexivity.
Qed.

Lemma example5_empty_listing_key_error_witness :
  example5 (sample_bucket [] []) text_paths images_downloader []
  = ((["Download complete:"; "  - Downloaded: 0"; "  - Failed: 0"]%string,
      Raise (OtherException "KeyError")), listed []).
Proof.
  apply (example5_empty_listing_key_error (sample_bucket [] []) text_paths
           images_downloader "photos" [] (listed [])).
  - reflexivity.
  - reflexivity.
Defined.

(** X20. After a batch over a listing that is not empty (directory
    creation raising nothing) the summary of Example 5 prints its four
    lines and ends normally, also when the filter left no file. *)
Theorem example5_listing_summary :
  forall (c : collaborators) (P : pathlib) (downloader : S3Downloader)
         (bucket : string) (first : object_record)
         (others : list object_record) (h h1 : history),
    mkdir_succeeds c ->
    truthy_str (py_or None (self_bucket_name downloader)) = Some bucket ->
    list_objects c downloader (Some bucket) "images/" 1000 h
    = (Return (first :: others), h1) ->
    exists lines h2,
      example5 c P downloader h = ((lines, Return tt), h2)
      /\ List.length lines = 4.
Proof.
  intros c P downloader bucket first others h h1 Hmk Hb Hl.
  destruct (download_directory_run c P downloader "images/" bucket
              (Some [".jpg"; ".png"; ".gif"; ".webp"]%string) None
              (Some 10%Z) (first :: others) h h1 Hmk Hb Hl)
    as [t [s [E [_ [_ [_ [_ [_ [_ [Ht _]]]]]]]]]].
  unfold example5. rewrite E.
  unfold example5_summary, getitem_total_files. rewrite Ht.
  unfold py_truediv.
  destruct (Nat.max _ 1) eqn:Em; [lia |].
  eexists _, _. split; reflexivity.
Qed.

Lemma example5_listing_summary_witness :
  exists lines h2,
    example5 (sample_bucket [obj_of "images/notes.txt"] []) text_paths
             images_downloader []
    = ((lines, Return tt), h2)
    /\ List.length lines = 4.
Proof.
  apply (example5_listing_summary
           (sample_bucket [obj_of "images/notes.txt"] []) text_paths
           images_downloader "photos" (rec_of "images/notes.txt") []
           [] (listed [obj_of "images/notes.txt"])).
  - intros h d. reflexivity.
  - reflexivity.
  - reflexivity.
Defined.

(** ** The command line *)

Section CommandLine.

Variable c : collaborators.
Variable P : pathlib.
Variable buckets : outcome (list string).
Variable now : string.
Variable write_file : string -> string -> outcome unit.

Ltac case_dispatch :=
  repeat match goal with
         | |- context [match ?x with _ => _ end] => destruct x eqn:?
         | |- context [if ?b then _ else _] => destruct b eqn:?
         end.

Ltac action_taken :=
  simpl; split;
  [ split; [discriminate | intros (Ha & Hb & Hc & Hd); discriminate]
  | discriminate ].

(** X21. The dispatch of [main] shows the help text exactly when none of
    the four actions is requested, an empty [--download-file] or
    [--download-dir] value counting as not requested; it never falls
    through without doing anything. *)
Theorem main_help_iff_no_action :
  forall (downloader : S3Downloader) (args : cli_args) (h : history),
    (fst (main_dispatch c P buckets now write_file downloader args h)
     = PrintedHelp
     <-> (arg_list_buckets args = false
          /\ arg_list_objects args = false
          /\ given (arg_download_file args) = false
          /\ given (arg_download_dir args) = false))
    /\ fst (main_dispatch c P buckets now write_file downloader args h)
       <> NothingDone.
Proof.
  intros downloader args h. unfold main_dispatch.
  destruct (arg_list_buckets args) eqn:E1.
  { destruct (list_buckets buckets); action_taken. }
  destruct (arg_list_objects args) eqn:E2.
  { case_dispatch; action_taken. }
  destruct (given (arg_download_file args)) eqn:E3.
  { case_dispatch; action_taken. }
  destruct (given (arg_download_dir args)) eqn:E4.
  { case_dispatch; action_taken. }
  simpl. split; [| discriminate]. split; [intros _ | reflexivity].
  repeat split.
Qed.

(** X22. Without [--bucket], every action except the bucket listing is
    refused before anything happens: the dispatch reports that a bucket
    is required (or shows the help text) and makes no call to the
    storage client or the file system. *)
Theorem main_requires_bucket :
  forall (downloader : S3Downloader) (args : cli_args) (h : history),
    given (arg_bucket args) = false ->
    arg_list_buckets args = false ->
    (fst (main_dispatch c P buckets now write_file downloader args h)
     = BucketRequired
     \/ fst (main_dispatch c P buckets now write_file downloader args h)
        = PrintedHelp)
    /\ snd (main_dispatch c P buckets now write_file downloader args h) = h.
Proof.
  intros downloader args h Hb Hl. unfold main_dispatch. rewrite Hl, Hb. simpl.
  destruct (arg_list_objects args); [split; [now left | reflexivity] |].
  destruct (given (arg_download_file args));
    [split; [now left | reflexivity] |].
  destruct (given (arg_download_dir args));
    [split; [now left | reflexivity] |].
  simpl. split; [now right | reflexivity].
Qed.

(** X23. A directory download from the command line (bucket given,
    listing and directory creation raising nothing, report file
    writable) always ends with the report printed and written to
    [download_report.txt] under the download path; the report is the one
    generated from the statistics of the batch, which run over the
    prefix and the bucket of the command line and satisfy the batch
    invariant. *)
Theorem main_directory_download_reports :
  forall (downloader : S3Downloader) (args : cli_args)
         (bucket prefix : string) (listing : list object_record)
         (h h1 : history),
    arg_list_buckets args = false ->
    arg_list_objects args = false ->
    given (arg_download_file args) = false ->
    truthy_str (arg_download_dir args) = Some prefix ->
    truthy_str (arg_bucket args) = Some bucket ->
    mkdir_succeeds c ->
    (forall file text, write_file file text = Return tt) ->
    list_objects c downloader (Some bucket) prefix 1000 h
    = (Return listing, h1) ->
    exists s report t,
      main_dispatch c P buckets now write_file downloader args h
      = (PrintedReport s report
           (path_join P (self_download_path downloader) "download_report.txt"),
         h1 ++ t)
      /\ download_directory c P downloader prefix (arg_extensions args)
                            (arg_bucket args) (arg_max_files args) h
         = (Return s, h1 ++ t)
      /\ generate_download_report now downloader s = Return report
      /\ batch_invariant s.
Proof.
  intros downloader args bucket prefix listing h h1
         Hlb Hlo Hdf Hdd Hb Hmk Hw Hl.
  assert (Hdir : arg_download_dir args = Some prefix).
  { destruct (arg_download_dir args) as [d|]; simpl in Hdd; [| discriminate].
    destruct (PyStr.truthy d); now inversion Hdd. }
  assert (Hbk : truthy_str (py_or (arg_bucket args)
                                  (self_bucket_name downloader))
                = Some bucket).
  { destruct (arg_bucket args) as [b|]; simpl in Hb; [| discriminate].
    destruct (PyStr.truthy b) eqn:Et; [| discriminate].
    inversion Hb; subst. now apply truthy_str_py_or. }
  destruct (download_directory_run c P downloader prefix bucket
              (arg_extensions args) (arg_bucket args) (arg_max_files args)
              listing h h1 Hmk Hbk Hl)
    as [t [s [E [_ [_ [_ [_ [Hn [_ [Ht _]]]]]]]]]].
  destruct (generate_download_report_returns now downloader s)
    as [report Hr].
  exists s, report, t.
  unfold main_dispatch, given. rewrite Hlb, Hlo.
  unfold given in Hdf. rewrite Hdf, Hdd, Hb. simpl.
  rewrite Hdir. simpl. rewrite E, Hr, Hw.
  repeat split; try assumption.
  unfold batch_invariant, get_total_files. rewrite Ht.
  assert (Hlen := eligible_markers_length
                    (selected_objects (arg_extensions args)
                                      (arg_max_files args) listing)).
  destruct listing; [rewrite selected_objects_nil in Hn; simpl in Hn |]; lia.
Qed.

End CommandLine.

Lemma main_requires_bucket_witness :
  (fst (main_dispatch (sample_bucket sample_contents []) text_paths
          (Return ["photos"]) "2024-01-01 00:00:00"
          (fun _ _ => Return tt) unconfigured_downloader
          (mk_cli_args None false false "" None (Some "images/")
                       None None None) [])
   = BucketRequired
   \/ fst (main_dispatch (sample_bucket sample_contents []) text_paths
             (Return ["photos"]) "2024-01-01 00:00:00"
             (fun _ _ => Return tt) unconfigured_downloader
             (mk_cli_args None false false "" None (Some "images/")
                          None None None) [])
      = PrintedHelp)
  /\ snd (main_dispatch (sample_bucket sample_contents []) text_paths
            (Return ["photos"]) "2024-01-01 00:00:00"
            (fun _ _ => Return tt) unconfigured_downloader
            (mk_cli_args None false false "" None (Some "images/")
                         None None None) [])
     = [].
Proof.
  apply (main_requires_bucket (sample_bucket sample_contents []) text_paths
           (Return ["photos"]) "2024-01-01 00:00:00" (fun _ _ => Return tt)
           unconfigured_downloader
           (mk_cli_args None false false "" None (Some "images/")
                        None None None) []).
  - reflexivity.
  - reflexivity.
Defined.

Lemma main_directory_download_reports_witness :
  exists s report t,
    main_dispatch (sample_bucket sample_contents ["images/b.JPG"]) text_paths
                  (Return ["photos"]) "2024-01-01 00:00:00"
                  (fun _ _ => Return tt) images_downloader
                  download_images_args []
    = (PrintedReport s report
         (path_join text_paths (self_download_path images_downloader)
                    "download_report.txt"),
       listed sample_contents ++ t)
    /\ download_directory (sample_bucket sample_contents ["images/b.JPG"])
                          text_paths images_downloader "images/"
                          (arg_extensions download_images_args)
                          (arg_bucket download_images_args)
                          (arg_max_files download_images_args) []
       = (Return s, listed sample_contents ++ t)
    /\ generate_download_report "2024-01-01 00:00:00" images_downloader s
       = Return report
    /\ batch_invariant s.
Proof.
  apply (main_directory_download_reports
           (sample_bucket sample_contents ["images/b.JPG"]) text_paths
           (Return ["photos"]) "2024-01-01 00:00:00" (fun _ _ => Return tt)
           images_downloader download_images_args "photos" "images/"
           sample_listing [] (listed sample_contents)).
  - reflexivity.
  - reflexivity.
  - reflexivity.
  - reflexivity.
  - reflexivity.
  - intros h d. reflexivity.
  - intros file text. reflexivity.
  - reflexivity.
Defined.

(** ** File names *)

Lemma lstrip_all_stripped (ch : ascii) (s : string) :
  PyStr.lstrip ch s = ""%string ->
  s = ""%string \/ PyStr.endswith s (String ch "") = true.
Proof.
  induction s as [|x s IH]; simpl; [now left |].
  destruct (Ascii.eqb_spec x ch) as [->|]; [| discriminate].
  intros H. right. apply endswith_spec.
  destruct (IH H) as [-> | He].
  - now exists ""%string.
  - apply endswith_spec in He. destruct He as [front ->].
    now exists (String ch front).
Qed.

Lemma endswith_app_r (front s suffix : string) :
  PyStr.endswith s suffix = true ->
  PyStr.endswith (front ++ s) suffix = true.
Proof.
  rewrite !endswith_spec. intros [f ->]. exists (front ++ f)%string.
  clear. induction front as [|x front IH]; simpl; [reflexivity | now rewrite IH].
Qed.

(** X24. A key that continues the prefix and is not a directory marker
    gets a file name: its relative path is not empty and does not end in
    the separator. *)
Theorem relative_path_names_a_file :
  forall (prefix : string) (x : ascii) (rest : string),
    is_directory_marker (prefix ++ String x rest) = false ->
    PyStr.truthy (relative_path (prefix ++ String x rest) prefix) = true
    /\ is_directory_marker (relative_path (prefix ++ String x rest) prefix)
       = false.
Proof.
  intros prefix x rest Hm. unfold relative_path. rewrite slice_from_app.
  assert (Hr : PyStr.endswith (String x rest) (String sep "") = false).
  { destruct (PyStr.endswith (String x rest) (String sep "")) eqn:E;
      [| reflexivity].
    apply (endswith_app_r prefix) in E. unfold is_directory_marker in Hm.
    congruence. }
  split.
  - destruct (PyStr.lstrip sep (String x rest)) eqn:El; [| reflexivity].
    apply lstrip_all_stripped in El. destruct El; [discriminate | congruence].
  - unfold is_directory_marker.
    destruct (PyStr.endswith (PyStr.lstrip sep (String x rest))
                             (String sep "")) eqn:E; [| reflexivity].
    destruct (lstrip_suffix sep (String x rest)) as [front [Hs _]].
    apply (endswith_app_r front) in E. rewrite <- Hs in E. congruence.
Qed.

Lemma relative_path_names_a_file_witness :
  PyStr.truthy (relative_path ("images/" ++ String "s" "ub/x.png") "images/")
  = true
  /\ is_directory_marker
       (relative_path ("images/" ++ String "s" "ub/x.png") "images/")
     = false.
Proof.
  apply (relative_path_names_a_file "images/" "s"%char "ub/x.png").
  reflexivity.
Defined.
